(** * Configuration resolution and authentication gate of aab_react_express

    A shallow embedding of [server/src/config/config-manager.ts] (the
    [ConfigManager] singleton), of the authentication middleware
    [server/src/api/middleware/auth.ts] and of the request pipeline wired
    by [setupApp] in [server/src/index.ts].

    JavaScript values are modelled dynamically, as [JSON.parse] produces them
    (the TypeScript interface is not checked at run time), together with what
    [deepMerge] can build from them.  Numbers are modelled as integers or NaN;
    strings are byte strings (their length is the JavaScript length for ASCII
    text).  Objects are association lists of own properties in insertion
    order.  A parsed object has [Object.prototype] as its prototype; an
    assignment [result["__proto__"] = v] in [deepMerge] runs the inherited
    [__proto__] setter and gives an object another prototype ([VProtoObj]),
    and reading [o["__proto__"]] yields the prototype, possibly one of the
    built-in prototype objects ([VBuiltin]).  Property reads follow the
    prototype chain.  A built-in method read as a value is modelled as
    undefined: the code only tests such a value with [typeof ... === "object"]
    (false for a function and for undefined) or calls the methods modelled
    here ([hasOwnProperty], [toString], [valueOf], [join]). *)

From Stdlib Require Import String Ascii List ZArith Bool Lia DecimalString.
From Stdlib Require Import FunctionalExtensionality.
Import ListNotations.
Set Warnings "-register-all".
Open Scope string_scope.
Open Scope Z_scope.

(* ------------------------------------------------------------------ *)
(** ** JavaScript values *)

Inductive jsnum : Type :=
| NaN
| Num (z : Z).

(** The built-in prototype objects reachable through [o["__proto__"]]. *)
Inductive builtin : Type :=
| ObjectPrototype
| ArrayPrototype
| StringPrototype
| NumberPrototype
| BooleanPrototype.

Inductive value : Type :=
| VUndef
| VNull
| VBool (b : bool)
| VNum (n : jsnum)
| VStr (s : string)
| VArr (l : list value)
| VObj (kvs : list (string * value))                      (* prototype Object.prototype *)
| VProtoObj (proto : value) (kvs : list (string * value))  (* another prototype *)
| VBuiltin (b : builtin).

(** Errors raised by the code or by the runtime. *)
Inductive js_error : Type :=
| TypeError        (* property read on undefined or null, call of a non-function *)
| ENOENT           (* fs.readFileSync on a missing file *)
| SyntaxError      (* JSON.parse on malformed text *)
| ConfigLoadError (cause : js_error).  (* "Configuration loading failed: ..." *)

Inductive result (A : Type) : Type :=
| Ok (a : A)
| Throw (e : js_error).
Arguments Ok {A} a.
Arguments Throw {A} e.

Definition bind {A B} (r : result A) (k : A -> result B) : result B :=
  match r with
  | Ok a => k a
  | Throw e => Throw e
  end.

Notation "x <- r ;; k" := (bind r (fun x => k))
  (at level 61, r at next level, right associativity).

(** ToBoolean. *)
Definition truthy (v : value) : bool :=
  match v with
  | VUndef | VNull => false
  | VBool b => b
  | VNum NaN => false
  | VNum (Num z) => negb (z =? 0)
  | VStr s => negb (String.eqb s "")
  | VArr _ | VObj _ | VProtoObj _ _ | VBuiltin _ => true
  end.

(** [typeof v === "object" && !Array.isArray(v) && v !== null];
    [Array.prototype] is an array. *)
Definition is_plain_object (v : value) : bool :=
  match v with
  | VObj _ | VProtoObj _ _ => true
  | VBuiltin ArrayPrototype => false
  | VBuiltin _ => true
  | _ => false
  end.

Fixpoint lookup (kvs : list (string * value)) (k : string) : option value :=
  match kvs with
  | [] => None
  | (k', v) :: rest => if String.eqb k k' then Some v else lookup rest k
  end.

(** Creating or updating the own property [k] of an object: an existing key
    keeps its position, a new key is appended. *)
Fixpoint set (kvs : list (string * value)) (k : string) (v : value)
  : list (string * value) :=
  match kvs with
  | [] => [(k, v)]
  | (k', v') :: rest =>
      if String.eqb k k' then (k', v) :: rest else (k', v') :: set rest k v
  end.

Definition index_key (n : nat) : string :=
  NilZero.string_of_uint (Nat.to_uint n).

Fixpoint indexed {A B} (f : A -> B) (i : nat) (l : list A)
  : list (string * B) :=
  match l with
  | [] => []
  | x :: rest => (index_key i, f x) :: indexed f (S i) rest
  end.

(** The own enumerable properties copied by the spread [{ ...v }]. *)
Definition spread (v : value) : list (string * value) :=
  match v with
  | VObj kvs | VProtoObj _ kvs => kvs
  | VArr l => indexed (fun x => x) 0 l
  | VStr s => indexed (fun c => VStr (String c EmptyString)) 0 (list_ascii_of_string s)
  | _ => []
  end.

(** All own properties, enumerable or not, the [length] of strings, arrays
    and of the prototypes [String.prototype] and [Array.prototype] included
    (built-in methods apart). *)
Definition own_props (v : value) : list (string * value) :=
  match v with
  | VObj kvs | VProtoObj _ kvs => kvs
  | VArr l =>
      indexed (fun x => x) 0 l ++ [("length", VNum (Num (Z.of_nat (List.length l))))]
  | VStr s =>
      indexed (fun c => VStr (String c EmptyString)) 0 (list_ascii_of_string s)
      ++ [("length", VNum (Num (Z.of_nat (String.length s))))]
  | VBuiltin ArrayPrototype | VBuiltin StringPrototype => [("length", VNum (Num 0))]
  | _ => []
  end.

(** [Object.getPrototypeOf(Object(v))]. *)
Definition proto_of (v : value) : value :=
  match v with
  | VObj _ => VBuiltin ObjectPrototype
  | VProtoObj p _ => p
  | VArr _ => VBuiltin ArrayPrototype
  | VStr _ => VBuiltin StringPrototype
  | VNum _ => VBuiltin NumberPrototype
  | VBool _ => VBuiltin BooleanPrototype
  | VBuiltin ObjectPrototype => VNull
  | VBuiltin _ => VBuiltin ObjectPrototype
  | VUndef | VNull => VNull
  end.

(** Where the property [k] of [o] is found along the prototype chain: a data
    property; no data property on the way, the chain going on with the
    built-in prototype [b] (whose own methods come first, then those of
    [Object.prototype], among them the [__proto__] accessor); or nothing, the
    chain ending in null. *)
Inductive found : Type :=
| Data (x : value)
| Builtin (b : builtin)
| Absent.

Fixpoint lookup_chain (o : value) (k : string) : found :=
  match lookup (own_props o) k with
  | Some x => Data x
  | None =>
      match o with
      | VUndef | VNull => Absent
      | VProtoObj p _ => lookup_chain p k
      | VObj _ => Builtin ObjectPrototype
      | VArr _ => Builtin ArrayPrototype
      | VStr _ => Builtin StringPrototype
      | VNum _ => Builtin NumberPrototype
      | VBool _ => Builtin BooleanPrototype
      | VBuiltin b => Builtin b
      end
  end.

(** Property read [v[k]]: the [__proto__] getter returns the prototype, a
    built-in method reads as undefined (see the header). *)
Definition get (v : value) (k : string) : result value :=
  match v with
  | VUndef | VNull => Throw TypeError
  | _ =>
      Ok (match lookup_chain v k with
          | Data x => x
          | Builtin _ => if String.eqb k "__proto__" then proto_of v else VUndef
          | Absent => VUndef
          end)
  end.

(* ------------------------------------------------------------------ *)
(** ** [ConfigManager.deepMerge] *)

(** [typeof v === "object"]: an object, or null. *)
Definition is_object_or_null (v : value) : bool :=
  match v with
  | VNull | VArr _ | VObj _ | VProtoObj _ _ | VBuiltin _ => true
  | _ => false
  end.

(** An ordinary object with prototype [p] and own properties [kvs]. *)
Definition mk_obj (p : value) (kvs : list (string * value)) : value :=
  match p with
  | VBuiltin ObjectPrototype => VObj kvs
  | _ => VProtoObj p kvs
  end.

(** [result[key] = v] on the ordinary object with prototype [p] and own
    properties [kvs]: an own key is updated in place; otherwise [__proto__],
    when the chain reaches the inherited accessor, runs its setter, which
    makes an object or null the new prototype and ignores any other value;
    any other key becomes a new own property.  (The prototypes met here,
    objects and arrays from [JSON.parse] or [deepMerge], have no read-only
    property.) *)
Definition assign_props (p : value) (kvs : list (string * value)) (key : string)
    (v : value) : value :=
  match lookup kvs key with
  | Some _ => mk_obj p (set kvs key v)
  | None =>
      if String.eqb key "__proto__" then
        match lookup_chain p "__proto__" with
        | Builtin _ => if is_object_or_null v then mk_obj v kvs else mk_obj p kvs
        | _ => mk_obj p (set kvs key v)
        end
      else mk_obj p (set kvs key v)
  end.

Definition assign (res : value) (key : string) (v : value) : value :=
  match res with
  | VObj kvs => assign_props (VBuiltin ObjectPrototype) kvs key v
  | VProtoObj p kvs => assign_props p kvs key v
  | _ => res
  end.

(** The body of the [for (const key in source)] loop over the own properties
    of [source]; [dm] is the recursive call and [target] is read, never
    [result]. *)
Fixpoint merge_loop (dm : value -> value -> result value) (target : value)
    (res : value) (kvs : list (string * value)) {struct kvs} : result value :=
  match kvs with
  | [] => Ok res
  | (key, sv) :: rest =>
      if is_plain_object sv then
        tv <- get target key ;;
        if is_plain_object tv then
          m <- dm tv sv ;;
          merge_loop dm target (assign res key m) rest
        else merge_loop dm target (assign res key sv) rest
      else merge_loop dm target (assign res key sv) rest
  end.

(** [for (const key in source)] visits some key: [source] or an object on its
    prototype chain has an enumerable own property. *)
Fixpoint has_enumerable (v : value) : bool :=
  match v with
  | VProtoObj p kvs => match kvs with [] => has_enumerable p | _ => true end
  | VObj kvs => match kvs with [] => false | _ => true end
  | VArr l => match l with [] => false | _ => true end
  | _ => false
  end.

(** [source.hasOwnProperty] is the method inherited from
    [Object.prototype], not shadowed by a data property. *)
Definition hasOwnProperty_callable (v : value) : bool :=
  match lookup_chain v "hasOwnProperty" with
  | Builtin _ => true
  | _ => false
  end.

(** [deepMerge]: on the first key of the [for ... in] loop,
    [source.hasOwnProperty(key)] throws a TypeError unless it is the
    inherited method; then every own key is merged into [{ ...target }]. *)
Fixpoint deepMerge (target source : value) {struct source} : result value :=
  match source with
  | VUndef | VNull => Ok target
  | VObj skvs | VProtoObj _ skvs =>
      if has_enumerable source && negb (hasOwnProperty_callable source)
      then Throw TypeError
      else merge_loop deepMerge target (VObj (spread target)) skvs
  | VBuiltin ArrayPrototype => Ok source
  | VBuiltin _ => Ok (VObj (spread target))
  | _ => Ok source
  end.

(* ------------------------------------------------------------------ *)
(** ** Number conversions *)

(** ASCII white space (TAB, LF, VT, FF, CR, SP). *)
Definition is_ws (c : ascii) : bool :=
  match nat_of_ascii c with
  | 9%nat | 10%nat | 11%nat | 12%nat | 13%nat | 32%nat => true
  | _ => false
  end.

Fixpoint trim_start (l : list ascii) : list ascii :=
  match l with
  | c :: rest => if is_ws c then trim_start rest else l
  | [] => []
  end.

Definition trim (l : list ascii) : list ascii := rev (trim_start (rev (trim_start l))).

Definition digit_val (c : ascii) : option Z :=
  let n := nat_of_ascii c in
  if (48 <=? n)%nat && (n <=? 57)%nat then Some (Z.of_nat n - 48) else None.

(** The longest prefix of decimal digits, as a value, and the rest. *)
Fixpoint take_digits (acc : Z) (seen : bool) (l : list ascii)
  : option Z * list ascii :=
  match l with
  | c :: rest =>
      match digit_val c with
      | Some d => take_digits (10 * acc + d) true rest
      | None => (if seen then Some acc else None, l)
      end
  | [] => (if seen then Some acc else None, [])
  end.

Definition split_sign (l : list ascii) : Z * list ascii :=
  match l with
  | "-"%char :: rest => (-1, rest)
  | "+"%char :: rest => (1, rest)
  | _ => (1, l)
  end.

(** [parseInt(s, 10)]: leading white space, an optional sign, then the
    longest run of decimal digits; NaN when there is none. *)
Definition parseInt10 (s : string) : jsnum :=
  let (sg, l) := split_sign (trim_start (list_ascii_of_string s)) in
  match fst (take_digits 0 false l) with
  | Some n => Num (sg * n)
  | None => NaN
  end.

(** StringToNumber, for the integer literals of the model: the trimmed empty
    string is 0, an optionally signed run of decimal digits is its value,
    anything else is NaN. *)
Definition str_to_num (s : string) : jsnum :=
  match trim (list_ascii_of_string s) with
  | [] => Num 0
  | l =>
      let (sg, l') := split_sign l in
      match take_digits 0 false l' with
      | (Some n, []) => Num (sg * n)
      | _ => NaN
      end
  end.

Definition num_to_string (n : jsnum) : string :=
  match n with
  | NaN => "NaN"
  | Num z => NilZero.string_of_int (Z.to_int z)
  end.

Fixpoint join (sep : string) (l : list string) : string :=
  match l with
  | [] => ""
  | [x] => x
  | x :: rest => x ++ sep ++ join sep rest
  end.

Fixpoint all_ok {A} (l : list (result A)) : result (list A) :=
  match l with
  | [] => Ok []
  | r :: rest => x <- r ;; xs <- all_ok rest ;; Ok (x :: xs)
  end.

(** ToString and ToNumber of a value, each after ToPrimitive (with hint
    string and with hint number). *)
Record conv : Type := {
  c_str : result string;
  c_num : result jsnum
}.

(** A property of an object as ToPrimitive and [Array.prototype.join] find it
    along the prototype chain: a data property, with the conversions of its
    value; no data property, the chain going on with the built-in prototype
    [b] (whose methods are then the ones called); or nothing. *)
Inductive slot : Type :=
| SData (x : value) (c : conv)
| SBuiltin (b : builtin)
| SAbsent.

Fixpoint assoc {A} (l : list (string * A)) (k : string) : option A :=
  match l with
  | [] => None
  | (k', a) :: rest => if String.eqb k k' then Some a else assoc rest k
  end.

(** Own data properties first, then the rest of the chain. *)
Definition with_own (own : list (string * (value * conv))) (rest : string -> slot)
    (k : string) : slot :=
  match assoc own k with
  | Some (x, c) => SData x c
  | None => rest k
  end.

Definition str_data (s : string) : value * conv :=
  (VStr s, {| c_str := Ok s; c_num := Ok (str_to_num s) |}).

Definition num_data (z : Z) : value * conv :=
  (VNum (Num z), {| c_str := Ok (num_to_string (Num z)); c_num := Ok (Num z) |}).

(** ToLength, as a count (lengths up to 2^53 - 1). *)
Definition to_length (n : jsnum) : nat :=
  match n with
  | NaN => 0%nat
  | Num z => Z.to_nat (Z.min z (2 ^ 53 - 1))
  end.

(** [Array.prototype.join] with the default separator "," on the object
    whose properties [tbl] gives: [ToLength(this.length)] elements, each
    printed with ToString, undefined and null as "".  (V8's limit on the
    length of a string is not modelled.) *)
Definition join_via (tbl : string -> slot) : result string :=
  len <- match tbl "length" with SData _ c => c_num c | _ => Ok NaN end ;;
  parts <- all_ok (map (fun i => match tbl (index_key i) with
                                 | SData VUndef _ | SData VNull _ => Ok ""
                                 | SData _ c => c_str c
                                 | _ => Ok ""
                                 end)
                       (seq 0 (to_length len))) ;;
  Ok (join "," parts).

(** ToPrimitive of an ordinary object whose properties [tbl] gives, then
    ToString or ToNumber.  Hint string calls [toString], then [valueOf]:
    [Object.prototype.toString] gives "[object Object]" (the object is not an
    array), [Array.prototype.toString] calls the inherited [join] if it is
    [Array.prototype.join] and is [Object.prototype.toString] otherwise;
    the [toString] of [String], [Number] or [Boolean] prototypes throws on an
    ordinary object, and a data property is not callable, after which
    [valueOf] returns the object or throws: a TypeError.  Hint number calls
    [valueOf] first: [Object.prototype.valueOf] returns the object, and the
    [toString] result is used; the other prototypes' [valueOf] throws. *)
Definition object_conv (tbl : string -> slot) : conv :=
  let str :=
    match tbl "toString" with
    | SBuiltin ObjectPrototype => Ok "[object Object]"
    | SBuiltin ArrayPrototype =>
        match tbl "join" with
        | SBuiltin ArrayPrototype => join_via tbl
        | _ => Ok "[object Object]"
        end
    | _ => Throw TypeError
    end in
  {| c_str := str;
     c_num :=
       match tbl "valueOf" with
       | SBuiltin StringPrototype | SBuiltin NumberPrototype
       | SBuiltin BooleanPrototype => Throw TypeError
       | _ => s <- str ;; Ok (str_to_num s)
       end |}.

(** The conversions of a value, and its properties as seen through the
    prototype chain (which only an object is part of).  An array is
    converted like an ordinary object: its [toString] and [join] are those
    of [Array.prototype].  The prototypes [String.prototype],
    [Number.prototype] and [Boolean.prototype] wrap "", 0 and false. *)
Fixpoint analyse (v : value) : conv * (string -> slot) :=
  match v with
  | VUndef => ({| c_str := Ok "undefined"; c_num := Ok NaN |}, fun _ => SAbsent)
  | VNull => ({| c_str := Ok "null"; c_num := Ok (Num 0) |}, fun _ => SAbsent)
  | VBool b =>
      ({| c_str := Ok (if b then "true" else "false");
          c_num := Ok (Num (if b then 1 else 0)) |}, fun _ => SBuiltin BooleanPrototype)
  | VNum n => ({| c_str := Ok (num_to_string n); c_num := Ok n |},
               fun _ => SBuiltin NumberPrototype)
  | VStr s =>
      (snd (str_data s),
       with_own (indexed (fun c => str_data (String c EmptyString)) 0 (list_ascii_of_string s)
                 ++ [("length", num_data (Z.of_nat (String.length s)))])
                (fun _ => SBuiltin StringPrototype))
  | VArr l =>
      let tbl := with_own (indexed (fun x => (x, fst (analyse x))) 0 l
                           ++ [("length", num_data (Z.of_nat (List.length l)))])
                          (fun _ => SBuiltin ArrayPrototype) in
      (object_conv tbl, tbl)
  | VObj kvs =>
      let tbl := with_own (map (fun '(k, x) => (k, (x, fst (analyse x)))) kvs)
                          (fun _ => SBuiltin ObjectPrototype) in
      (object_conv tbl, tbl)
  | VProtoObj p kvs =>
      let tbl := with_own (map (fun '(k, x) => (k, (x, fst (analyse x)))) kvs)
                          (snd (analyse p)) in
      (object_conv tbl, tbl)
  | VBuiltin b =>
      let tbl := with_own (match b with
                           | ArrayPrototype | StringPrototype => [("length", num_data 0)]
                           | _ => []
                           end)
                          (fun _ => SBuiltin b) in
      (match b with
       | ObjectPrototype | ArrayPrototype => object_conv tbl
       | StringPrototype => {| c_str := Ok ""; c_num := Ok (Num 0) |}
       | NumberPrototype => {| c_str := Ok "0"; c_num := Ok (Num 0) |}
       | BooleanPrototype => {| c_str := Ok "false"; c_num := Ok (Num 0) |}
       end, tbl)
  end.

(** ToNumber. *)
Definition to_number (v : value) : result jsnum := c_num (fst (analyse v)).

(** [v <= n] and [v < n] against a number literal. *)
Definition js_le_num (v : value) (n : Z) : result bool :=
  x <- to_number v ;;
  Ok (match x with NaN => false | Num z => z <=? n end).

Definition js_lt_num (v : value) (n : Z) : result bool :=
  x <- to_number v ;;
  Ok (match x with NaN => false | Num z => z <? n end).

(** [v.length] on a truthy value. *)
Definition length_prop (v : value) : value :=
  match v with
  | VStr s => VNum (Num (Z.of_nat (String.length s)))
  | VArr l => VNum (Num (Z.of_nat (List.length l)))
  | _ => match get v "length" with Ok x => x | Throw _ => VUndef end
  end.

(* ------------------------------------------------------------------ *)
(** ** [ApplicationConfiguration] *)

Record server_config := {
  port : value;
  frontendDist : value;
  nodeEnv : value
}.

Record cors_config := {
  origin : value;
  methods : value;
  allowedHeaders : value;
  credentials : value
}.

Record session_config := {
  secret : value;
  resave : value;
  saveUninitialized : value;
  cookieSecure : value
}.

Record oidc_config := {
  issuer : value;
  clientID : value;
  clientSecret : value;
  callbackURL : value;
  scope : value
}.

Record auth_config := {
  disabled : value;
  oidc : oidc_config
}.

Record ApplicationConfiguration := {
  server : server_config;
  cors : cors_config;
  session : session_config;
  auth : auth_config
}.

(* ------------------------------------------------------------------ *)
(** ** The process environment and the configuration files *)

(** [process.env]: the value of a variable, [None] when it is unset. *)
Definition env := list (string * string).

Fixpoint env_get (e : env) (name : string) : option string :=
  match e with
  | [] => None
  | (n, v) :: rest => if String.eqb n name then Some v else env_get rest name
  end.

(** [process.env.NAME] is truthy. *)
Definition env_set (e : env) (name : string) : bool :=
  match env_get e name with
  | Some s => negb (String.eqb s "")
  | None => false
  end.

(** [process.env.NAME === lit] *)
Definition env_is (e : env) (name lit : string) : bool :=
  match env_get e name with
  | Some s => String.eqb s lit
  | None => false
  end.

(** [process.env.NAME || dflt]; [dflt] is only evaluated when the variable is
    unset or empty. *)
Definition env_or (e : env) (name : string) (dflt : result value) : result value :=
  match env_get e name with
  | Some s => if String.eqb s "" then dflt else Ok (VStr s)
  | None => dflt
  end.

(** A configuration file as [fs.readFileSync] followed by [JSON.parse] sees
    it. *)
Inductive file : Type :=
| Missing
| Garbled            (* present but unreadable or not valid JSON *)
| Doc (v : value).

Record world := {
  process_env : env;
  config_file : file;       (* server.config.json *)
  dev_config_file : file    (* server.config.dev.json *)
}.

(** [baseConfig.a.b] *)
Definition get2 (v : value) (a b : string) : result value :=
  x <- get v a ;; get x b.

Definition get3 (v : value) (a b c : string) : result value :=
  x <- get v a ;; y <- get x b ;; get y c.

(** The object literal assigned to [this.configuration] in
    [loadConfiguration], evaluated field by field in source order. *)
Definition resolve (e : env) (baseConfig : value) : result ApplicationConfiguration :=
  port_v <- (if env_set e "PORT"
             then Ok (VNum (parseInt10 (match env_get e "PORT" with
                                         | Some s => s | None => "" end)))
             else get2 baseConfig "server" "port") ;;
  frontendDist_v <- env_or e "FRONTEND_DIST" (get2 baseConfig "server" "frontendDist") ;;
  nodeEnv_v <- env_or e "NODE_ENV" (get2 baseConfig "server" "nodeEnv") ;;
  origin_v <- env_or e "CORS_ORIGIN" (get2 baseConfig "cors" "origin") ;;
  methods_v <- get2 baseConfig "cors" "methods" ;;
  allowedHeaders_v <- get2 baseConfig "cors" "allowedHeaders" ;;
  credentials_v <- get2 baseConfig "cors" "credentials" ;;
  secret_v <- env_or e "SESSION_SECRET" (get2 baseConfig "session" "secret") ;;
  resave_v <- get2 baseConfig "session" "resave" ;;
  saveUninitialized_v <- get2 baseConfig "session" "saveUninitialized" ;;
  cookieSecure_v <- (if env_is e "NODE_ENV" "production" then Ok (VBool true)
                     else get2 baseConfig "session" "cookieSecure") ;;
  disabled_v <- (if env_is e "DISABLE_AUTH" "true" || env_is e "DISABLE_AUTH" "1"
                 then Ok (VBool true)
                 else get2 baseConfig "auth" "disabled") ;;
  issuer_v <- env_or e "OIDC_ISSUER" (get3 baseConfig "auth" "oidc" "issuer") ;;
  clientID_v <- env_or e "OIDC_CLIENT_ID" (get3 baseConfig "auth" "oidc" "clientID") ;;
  clientSecret_v <- env_or e "OIDC_CLIENT_SECRET" (get3 baseConfig "auth" "oidc" "clientSecret") ;;
  callbackURL_v <- env_or e "OIDC_CALLBACK_URL" (get3 baseConfig "auth" "oidc" "callbackURL") ;;
  scope_v <- get3 baseConfig "auth" "oidc" "scope" ;;
  Ok {| server := {| port := port_v; frontendDist := frontendDist_v; nodeEnv := nodeEnv_v |};
        cors := {| origin := origin_v; methods := methods_v;
                   allowedHeaders := allowedHeaders_v; credentials := credentials_v |};
        session := {| secret := secret_v; resave := resave_v;
                      saveUninitialized := saveUninitialized_v; cookieSecure := cookieSecure_v |};
        auth := {| disabled := disabled_v;
                   oidc := {| issuer := issuer_v; clientID := clientID_v;
                              clientSecret := clientSecret_v; callbackURL := callbackURL_v;
                              scope := scope_v |} |} |}.

(* ------------------------------------------------------------------ *)
(** ** The [ConfigManager] singleton: state, console and methods *)

Inductive level : Type := LogL | WarnL | ErrorL.

Record state := {
  configuration : option ApplicationConfiguration;   (* this.configuration *)
  console : list (level * string)
}.

(** A method call: the new state and a value or a thrown error. *)
Definition M (A : Type) := state -> result A * state.

Definition ret {A} (a : A) : M A := fun st => (Ok a, st).

Definition mbind {A B} (m : M A) (k : A -> M B) : M B :=
  fun st => match m st with
            | (Ok a, st') => k a st'
            | (Throw e, st') => (Throw e, st')
            end.

Notation "x <<- m ;;; k" := (mbind m (fun x => k))
  (at level 61, m at next level, right associativity).

Definition emit (l : level) (msg : string) : M unit :=
  fun st => (Ok tt, {| configuration := configuration st;
                       console := app (console st) [(l, msg)] |}).

Definition lift {A} (r : result A) : M A := fun st => (r, st).

Definition store (c : ApplicationConfiguration) : M unit :=
  fun st => (Ok tt, {| configuration := Some c; console := console st |}).

(** [logConfigurationSources] *)
Definition logConfigurationSources (e : env) (devConfigLoaded : bool) : M unit :=
  let envOverrides :=
    filter (env_set e) ["PORT"; "FRONTEND_DIST"; "NODE_ENV"; "CORS_ORIGIN";
                        "SESSION_SECRET"; "DISABLE_AUTH"; "OIDC_ISSUER";
                        "OIDC_CLIENT_ID"; "OIDC_CLIENT_SECRET"; "OIDC_CALLBACK_URL"] in
  let sources :=
    app (if devConfigLoaded then ["server.config.dev.json"] else [])
    (match envOverrides with
     | [] => []
     | _ => ["Environment variables (" ++ join ", " envOverrides ++ ")"]
     end) in
  match sources with
  | [] => ret tt
  | _ => emit LogL ("Configuration overrides from: " ++ join ", " sources)
  end.

(** Reading [server.config.json]: a missing file or malformed JSON throws. *)
Definition read_config (f : file) : result value :=
  match f with
  | Missing => Throw ENOENT
  | Garbled => Throw SyntaxError
  | Doc v => Ok v
  end.

(** The body of the [try] block of [loadConfiguration]. *)
Definition load_body (w : world) : M ApplicationConfiguration :=
  base <<- lift (read_config (config_file w)) ;;;
  merged <<- (match dev_config_file w with
              | Missing => ret (base, false)
              | Garbled =>
                  _ <<- emit WarnL "Warning: server.config.dev.json exists but could not be parsed" ;;;
                  ret (base, false)
              | Doc devConfig =>
                  match deepMerge base devConfig with
                  | Ok m =>
                      _ <<- emit LogL "Development configuration loaded and merged from server.config.dev.json" ;;;
                      ret (m, true)
                  | Throw _ =>
                      _ <<- emit WarnL "Warning: server.config.dev.json exists but could not be parsed" ;;;
                      ret (base, false)
                  end
              end) ;;;
  cfg <<- lift (resolve (process_env w) (fst merged)) ;;;
  _ <<- store cfg ;;;
  _ <<- emit LogL ("Configuration loaded successfully from server.config.json" ++
                   (if snd merged then " with dev overrides" else "")) ;;;
  _ <<- logConfigurationSources (process_env w) (snd merged) ;;;
  ret cfg.

Definition loadConfiguration (w : world) : M ApplicationConfiguration :=
  fun st =>
    match configuration st with
    | Some c => (Ok c, st)
    | None =>
        match load_body w st with
        | (Ok c, st') => (Ok c, st')
        | (Throw e, st') =>
            (Throw (ConfigLoadError e),
             {| configuration := configuration st';
                console := app (console st')
                             [(ErrorL, "Failed to load configuration from server.config.json")] |})
        end
    end.

Definition getConfiguration (w : world) : M ApplicationConfiguration :=
  fun st =>
    match configuration st with
    | None => loadConfiguration w st
    | Some c => (Ok c, st)
    end.

Definition reloadConfiguration (w : world) : M ApplicationConfiguration :=
  fun st => loadConfiguration w {| configuration := None; console := console st |}.

(** The checks of [validateConfiguration] on a configuration: [Some msg] is
    the diagnostic of the first failing check, [None] when all pass. *)
Definition validate_checks (config : ApplicationConfiguration) : result (option string) :=
  let p := port (server config) in
  bad_port <- (if negb (truthy p) then Ok true else js_le_num p 0) ;;
  if bad_port then Ok (Some "Invalid server port configuration") else
  let s := secret (session config) in
  bad_secret <- (if negb (truthy s) then Ok true else js_lt_num (length_prop s) 16) ;;
  if bad_secret then Ok (Some "Session secret is too short or missing") else
  if negb (truthy (disabled (auth config))) then
    if negb (truthy (clientID (oidc (auth config))))
       || negb (truthy (clientSecret (oidc (auth config))))
    then Ok (Some "OIDC client credentials are missing")
    else Ok None
  else Ok None.

Definition validateConfiguration (w : world) : M bool :=
  config <<- getConfiguration w ;;;
  outcome <<- lift (validate_checks config) ;;;
  match outcome with
  | Some msg => _ <<- emit ErrorL msg ;;; ret false
  | None => ret true
  end.

(* ------------------------------------------------------------------ *)
(** ** The authentication gate ([auth.ts]) *)

Inductive response : Type :=
| JsonResp (status : Z) (body : value)        (* res.status(s).json(body) *)
| RedirectResp (status : Z) (url : string).   (* res.redirect(url): 302 *)

Inductive mw_result : Type :=
| CallNext
| Respond (r : response).

(** The parts of an Express request the gate reads: [req.path] (relative to
    the mount point of the middleware) and [req.isAuthenticated()]. *)
Record request := {
  path : string;
  authenticated : bool
}.

(** [isAuthDisabled()] on the loaded configuration. *)
Definition isAuthDisabled (cfg : ApplicationConfiguration) : bool :=
  truthy (disabled (auth cfg)).

(** [requireAuth] (console output omitted). *)
Definition requireAuth (cfg : ApplicationConfiguration) (req : request) : mw_result :=
  if isAuthDisabled cfg then CallNext
  else if authenticated req then CallNext
  else if String.prefix "/api/" (path req) then
    Respond (JsonResp 401 (VObj [("error", VStr "Authentication required")]))
  else Respond (RedirectResp 302 "/auth/login").

(** Express mounting: a middleware registered with [app.use(mount, ...)] runs
    for [mount] itself and for the paths below [mount ++ "/"], and sees
    [req.path] with the mount prefix removed ("/" when nothing is left). *)
Definition mount_match (mount p : string) : option string :=
  if String.eqb p mount then Some "/"
  else if String.prefix (mount ++ "/") p
  then Some (substring (String.length mount) (String.length p - String.length mount) p)
  else None.

(** GET routes registered by [createAuthRoutes] in Enabled mode. *)
Definition auth_routes : list string :=
  ["/auth/login"; "/auth/callback"; "/auth/logout"; "/auth/logged-out"; "/auth/user"].



Inductive outcome : Type :=
| AuthRoute                    (* handled by a route of createAuthRoutes *)
| Responded (r : response)     (* requireAuth answered *)
| ApiRoutes (sub : string)     (* passed to apiRoutes with req.path = sub *)
| StaticFiles.                 (* passed to express.static and the SPA fallback *)

(** A GET request through the stack built by [setupApp] after
    [initializeAuth]: the auth routes, then
    [app.use("/api", requireAuth, apiRoutes)], then
    [app.use(requireAuth, express.static(...))] (mounted at "/", so
    [req.path] is the full path). *)
Definition setupApp_dispatch (cfg : ApplicationConfiguration) (req : request) : outcome :=
  if existsb (String.eqb (path req)) auth_routes then AuthRoute
  else match mount_match "/api" (path req) with
       | Some sub =>
           match requireAuth cfg {| path := sub; authenticated := authenticated req |} with
           | CallNext => ApiRoutes sub
           | Respond r => Responded r
           end
       | None =>
           match requireAuth cfg req with
           | CallNext => StaticFiles
           | Respond r => Responded r
           end
       end.

(* ------------------------------------------------------------------ *)
(** ** Startup of the authentication layer and the logout route *)

(** What [configurePassport] stores in [global.oidcClient] and
    [global.oidcIssuer]: the client and the discovered issuer metadata. *)
Record oidc_handle := {
  client_id : string;
  end_session_endpoint : value   (* issuer.metadata.end_session_endpoint *)
}.

(** [initializeAuth]: in Disabled mode no discovery takes place; in Enabled
    mode a failing [Issuer.discover] is rethrown (startup fails), otherwise the
    globals hold the handle when the routes are registered. *)
Definition initializeAuth_globals (cfg : ApplicationConfiguration)
    (discovery : result oidc_handle) : result (option oidc_handle) :=
  if isAuthDisabled cfg then Ok None
  else h <- discovery ;; Ok (Some h).

(** The request-side inputs of the logout route: [req.protocol] and
    [req.get("host")]. *)
Record logout_request := {
  protocol : string;
  host : string
}.

(** Observable steps of a handler, in order. *)
Inductive action : Type :=
| PassportLogout                 (* req.logout(...) *)
| SessionDestroy                 (* req.session.destroy(...) *)
| ConsoleError (msg : string)
| ConsoleLog (msg : string)
| Send (r : response).

Section LogoutRoute.

(** [client.endSessionUrl({ post_logout_redirect_uri })] of openid-client:
    the URL it builds, or the error it throws. *)
Variable endSessionUrl : oidc_handle -> string -> result string.

Definition post_logout_uri (req : logout_request) : string :=
  protocol req ++ "://" ++ host req ++ "/auth/logged-out".

(** The Enabled-mode handler of GET /auth/logout.  [destroy_failed] is the
    outcome reported by the session store to the [destroy] callback. *)
Definition logout_enabled (g : option oidc_handle) (req : logout_request)
    (destroy_failed : bool) : list action :=
  let fallback := [ConsoleLog "Fallback logout - redirecting to login";
                   Send (RedirectResp 302 "/auth/login")] in
  [PassportLogout; SessionDestroy] ++
  (if destroy_failed then [ConsoleError "Session destruction error:"] else []) ++
  match g with
  | Some h =>
      if truthy (end_session_endpoint h) then
        match endSessionUrl h (post_logout_uri req) with
        | Ok logoutUrl =>
            [ConsoleLog "Redirecting to provider logout:"; Send (RedirectResp 302 logoutUrl)]
        | Throw _ => ConsoleError "Error constructing logout URL:" :: fallback
        end
      else fallback
  | None => fallback
  end.

(** GET /auth/logout as registered by [createAuthRoutes]. *)
Definition logout_route (cfg : ApplicationConfiguration) (g : option oidc_handle)
    (req : logout_request) (destroy_failed : bool) : list action :=
  if isAuthDisabled cfg
  then [Send (JsonResp 200 (VObj [("message", VStr "Authentication disabled - no logout required")]))]
  else logout_enabled g req destroy_failed.

End LogoutRoute.

(* ------------------------------------------------------------------ *)
(** ** Sample inputs *)

(** A base document shaped like the committed [server.config.json]. *)
Definition base_doc : value :=
  VObj [("server", VObj [("port", VNum (Num 3000));
                         ("frontendDist", VStr "../../frontend/dist");
                         ("nodeEnv", VStr "development")]);
        ("cors", VObj [("origin", VStr "http://localhost:5173");
                       ("methods", VArr [VStr "GET"; VStr "POST"]);
                       ("allowedHeaders", VArr [VStr "Content-Type"]);
                       ("credentials", VBool true)]);
        ("session", VObj [("secret", VStr "a-development-session-secret");
                          ("resave", VBool false);
                          ("saveUninitialized", VBool false);
                          ("cookieSecure", VBool false)]);
        ("auth", VObj [("disabled", VBool false);
                       ("oidc", VObj [("issuer", VStr "https://login.example.com/v2.0");
                                      ("clientID", VStr "abc");
                                      ("clientSecret", VStr "");
                                      ("callbackURL", VStr "http://localhost:3000/auth/callback");
                                      ("scope", VStr "openid profile email")])])].

(** A local-override document shaped like [server.config.dev.json]. *)
Definition dev_doc : value :=
  VObj [("auth", VObj [("oidc", VObj [("clientSecret", VStr "xyz")])])].

Definition empty_state : state := {| configuration := None; console := [] |}.

(** The configuration produced by a first [loadConfiguration] call. *)
Definition loaded_config (w : world) : option ApplicationConfiguration :=
  match fst (loadConfiguration w empty_state) with
  | Ok c => Some c
  | Throw _ => None
  end.

Definition with_env (w : world) (e : env) : world :=
  {| process_env := e; config_file := config_file w; dev_config_file := dev_config_file w |}.

(** The documented setup: base and local-override documents, no variables. *)
Definition dev_world : world :=
  {| process_env := []; config_file := Doc base_doc; dev_config_file := Doc dev_doc |}.

(** A local-override document that disables authentication, with
    DISABLE_AUTH=false in the environment. *)
Definition disable_auth_false_world : world :=
  {| process_env := [("DISABLE_AUTH", "false")];
     config_file := Doc base_doc;
     dev_config_file := Doc (VObj [("auth", VObj [("disabled", VBool true)])]) |}.

(** Production mode declared by the local-override document only. *)
Definition production_by_document_world : world :=
  {| process_env := [];
     config_file := Doc base_doc;
     dev_config_file := Doc (VObj [("server", VObj [("nodeEnv", VStr "production")])]) |}.

(** The document [loadConfiguration] resolves its object literal against:
    the base document, merged with the local-override document when that one
    is readable and the merge does not throw (derived from [load_body]). *)
Definition merged_documents (w : world) : result value :=
  base <- read_config (config_file w) ;;
  match dev_config_file w with
  | Doc devConfig =>
      match deepMerge base devConfig with
      | Ok m => Ok m
      | Throw _ => Ok base
      end
  | _ => Ok base
  end.

(** What the environment variables decide in a resolved configuration. *)
Definition env_overrides_respected (w : world) (cfg : ApplicationConfiguration) : Prop :=
  let e := process_env w in
  (forall s, env_get e "PORT" = Some s -> s <> "" -> port (server cfg) = VNum (parseInt10 s)) /\
  (forall s, env_get e "FRONTEND_DIST" = Some s -> s <> "" -> frontendDist (server cfg) = VStr s) /\
  (forall s, env_get e "NODE_ENV" = Some s -> s <> "" -> nodeEnv (server cfg) = VStr s) /\
  (forall s, env_get e "CORS_ORIGIN" = Some s -> s <> "" -> origin (cors cfg) = VStr s) /\
  (forall s, env_get e "SESSION_SECRET" = Some s -> s <> "" -> secret (session cfg) = VStr s) /\
  (forall s, env_get e "OIDC_ISSUER" = Some s -> s <> "" -> issuer (oidc (auth cfg)) = VStr s) /\
  (forall s, env_get e "OIDC_CLIENT_ID" = Some s -> s <> "" -> clientID (oidc (auth cfg)) = VStr s) /\
  (forall s, env_get e "OIDC_CLIENT_SECRET" = Some s -> s <> "" ->
     clientSecret (oidc (auth cfg)) = VStr s) /\
  (forall s, env_get e "OIDC_CALLBACK_URL" = Some s -> s <> "" ->
     callbackURL (oidc (auth cfg)) = VStr s) /\
  ((env_get e "DISABLE_AUTH" = Some "true" \/ env_get e "DISABLE_AUTH" = Some "1") ->
     disabled (auth cfg) = VBool true) /\
  (env_is e "DISABLE_AUTH" "true" = false -> env_is e "DISABLE_AUTH" "1" = false ->
     exists merged, merged_documents w = Ok merged /\ resolve e merged = Ok cfg /\
                    get2 merged "auth" "disabled" = Ok (disabled (auth cfg))).

(** Setting one of the given variables changes nothing in a load. *)
Definition env_vars_unread (names : list string) (w : world) (st : state) : Prop :=
  forall name v, In name names ->
    loadConfiguration (with_env w ((name, v) :: process_env w)) st = loadConfiguration w st.

(** No base configuration document. *)
Definition missing_config_world : world :=
  {| process_env := []; config_file := Missing; dev_config_file := Missing |}.

(** Not an object or an array: ToPrimitive of such a value cannot fail. *)
Definition is_primitive (v : value) : bool :=
  match v with
  | VArr _ | VObj _ | VProtoObj _ _ | VBuiltin _ => false
  | _ => true
  end.

Definition blank_config : ApplicationConfiguration :=
  {| server := {| port := VUndef; frontendDist := VUndef; nodeEnv := VUndef |};
     cors := {| origin := VUndef; methods := VUndef; allowedHeaders := VUndef;
                credentials := VUndef |};
     session := {| secret := VUndef; resave := VUndef; saveUninitialized := VUndef;
                   cookieSecure := VUndef |};
     auth := {| disabled := VUndef;
                oidc := {| issuer := VUndef; clientID := VUndef; clientSecret := VUndef;
                           callbackURL := VUndef; scope := VUndef |} |} |}.

(** The configuration resolved from [dev_world]. *)
Definition dev_config : ApplicationConfiguration :=
  Eval vm_compute in
    match loaded_config dev_world with Some c => c | None => blank_config end.

Definition with_secret (c : ApplicationConfiguration) (s : value) : ApplicationConfiguration :=
  {| server := server c; cors := cors c;
     session := {| secret := s; resave := resave (session c);
                   saveUninitialized := saveUninitialized (session c);
                   cookieSecure := cookieSecure (session c) |};
     auth := auth c |}.

Definition with_auth (c : ApplicationConfiguration) (d cid csec : value) : ApplicationConfiguration :=
  {| server := server c; cors := cors c; session := session c;
     auth := {| disabled := d;
                oidc := {| issuer := issuer (oidc (auth c)); clientID := cid;
                           clientSecret := csec; callbackURL := callbackURL (oidc (auth c));
                           scope := scope (oidc (auth c)) |} |} |}.

Definition cached (c : ApplicationConfiguration) : state :=
  {| configuration := Some c; console := [] |}.

(** The 401 answer of [requireAuth]. *)
Definition gate_401 : response :=
  JsonResp 401 (VObj [("error", VStr "Authentication required")]).

(** Two unauthenticated GET requests, by full path. *)
Definition api_anything : request := {| path := "/api/anything"; authenticated := false |}.
Definition dashboard : request := {| path := "/dashboard"; authenticated := false |}.

(** A discovered issuer advertising an end-session endpoint, and an
    [endSessionUrl] that, for an advertised endpoint, returns it with the
    [post_logout_redirect_uri] query parameter appended. *)
Definition sample_handle : oidc_handle :=
  {| client_id := "abc"; end_session_endpoint := VStr "https://idp.example/logout" |}.

Definition sample_endSessionUrl (h : oidc_handle) (uri : string) : result string :=
  if truthy (end_session_endpoint h) then
    Ok ((match end_session_endpoint h with VStr ep => ep | _ => "" end) ++
        "?post_logout_redirect_uri=" ++ uri)
  else Throw TypeError.

(** ** Induction over values, through arrays and objects *)

Section value_induction.
Variable P : value -> Prop.
Hypothesis HUndef : P VUndef.
Hypothesis HNull : P VNull.
Hypothesis HBool : forall b, P (VBool b).
Hypothesis HNum : forall n, P (VNum n).
Hypothesis HStr : forall s, P (VStr s).
Hypothesis HArr : forall l, Forall P l -> P (VArr l).
Hypothesis HObj : forall kvs, Forall (fun kv => P (snd kv)) kvs -> P (VObj kvs).
Hypothesis HProtoObj : forall p kvs, P p -> Forall (fun kv => P (snd kv)) kvs ->
  P (VProtoObj p kvs).
Hypothesis HBuiltin : forall b, P (VBuiltin b).

End value_induction.

(* ------------------------------------------------------------------ *)
(** ** Startup ([initializeAuth] and the top level of [index.ts]) *)

(** [initializeAuth(app)]; the returned handle is what [configurePassport]
    stores in [global.oidcClient]/[global.oidcIssuer].  [discover] is
    [Issuer.discover] applied to [authConfig.oidc.issuer].  Every
    [configManager.get...Config()] call is a [getConfiguration] call. *)
Definition initializeAuth (discover : value -> result oidc_handle) (w : world)
  : M (option oidc_handle) :=
  authConfig <<- getConfiguration w ;;;                      (* isAuthDisabled() *)
  if truthy (disabled (auth authConfig)) then
    _ <<- emit LogL "WARNING: Authentication is DISABLED" ;;;
    _ <<- emit LogL "   This should only be used in development environments" ;;;
    _ <<- emit LogL "   Set DISABLE_AUTH=false or remove the environment variable to enable authentication" ;;;
    _ <<- getConfiguration w ;;;                               (* configureSession() *)
    _ <<- getConfiguration w ;;;                               (* createAuthRoutes: isAuthDisabled() *)
    ret None
  else
    _ <<- emit LogL "Authentication is ENABLED" ;;;
    _ <<- getConfiguration w ;;;                               (* configureSession() *)
    authConfig' <<- getConfiguration w ;;;                     (* configurePassport: getAuthConfig() *)
    match discover (issuer (oidc (auth authConfig'))) with
    | Ok h =>
        _ <<- emit LogL "Discovered issuer" ;;;
        _ <<- emit LogL "OpenID Client strategy configured successfully" ;;;
        _ <<- getConfiguration w ;;;                           (* createAuthRoutes: isAuthDisabled() *)
        ret (Some h)
    | Throw e =>
        _ <<- emit ErrorL "Failed to configure OpenID Client strategy:" ;;;
        lift (Throw e)
    end.

(** How the process started by [index.ts] ends up. *)
Inductive startup : Type :=
| Crashed (e : js_error)                       (* uncaught at module top level *)
| Exited (code : Z)                            (* process.exit(code) *)
| Listening (p : value) (globals : option oidc_handle).   (* app.listen(PORT) *)

(** The top level of [index.ts]: load, validate (exit 1 on failure), then
    [setupApp()], whose rejection is caught with exit 1. *)
Definition main (discover : value -> result oidc_handle) (w : world) (st : state)
  : startup * state :=
  match loadConfiguration w st with
  | (Throw e, st1) => (Crashed e, st1)
  | (Ok config, st1) =>
      match validateConfiguration w st1 with
      | (Throw e, st2) => (Crashed e, st2)
      | (Ok false, st2) =>
          (Exited 1, snd (emit ErrorL "Configuration validation failed. Exiting..." st2))
      | (Ok true, st2) =>
          match initializeAuth discover w st2 with
          | (Ok g, st3) => (Listening (port (server config)) g, st3)
          | (Throw e, st3) => (Exited 1, snd (emit ErrorL "Failed to start server:" st3))
          end
      end
  end.

(** A step that sends the response. *)
Definition is_send (a : action) : bool :=
  match a with Send _ => true | _ => false end.

(** [w] with another local-override file. *)
Definition with_dev_file (w : world) (f : file) : world :=
  {| process_env := process_env w; config_file := config_file w; dev_config_file := f |}.

(* ================================================================== *)
(** * Properties *)

(** ** Objects as association lists *)


Lemma lookup_set_neq : forall kvs k k' v,
  k <> k' -> lookup (set kvs k' v) k = lookup kvs k.
Proof.
  induction kvs as [|[k0 v0] rest IH]; intros k k' v Hne; simpl.
  - destruct (String.eqb k k') eqn:E; [apply String.eqb_eq in E; congruence | reflexivity].
  - destruct (String.eqb k' k0) eqn:E'; simpl.
    + apply String.eqb_eq in E'; subst k0.
      destruct (String.eqb k k') eqn:E; [apply String.eqb_eq in E; congruence | reflexivity].
    + destruct (String.eqb k k0); [reflexivity | apply IH; exact Hne].
Qed.


(** ** [deepMerge] *)

(** [target[key]] on an object, for a key other than [__proto__]. *)
Definition own (t : list (string * value)) (k : string) : value :=
  match lookup t k with Some x => x | None => VUndef end.










(** The nested example of the documentation: [auth.oidc] keeps the base keys
    and gains the override's [clientSecret]. *)
Example deepMerge_oidc_example :
  deepMerge
    (VObj [("auth", VObj [("oidc", VObj [("clientID", VStr "abc");
                                         ("scope", VStr "openid profile email")])])])
    (VObj [("auth", VObj [("oidc", VObj [("clientSecret", VStr "xyz")])])])
  = Ok (VObj [("auth", VObj [("oidc", VObj [("clientID", VStr "abc");
                                            ("scope", VStr "openid profile email");
                                            ("clientSecret", VStr "xyz")])])]).
Proof. reflexivity. Qed.

(** Arrays are replaced, never concatenated. *)
Example deepMerge_array_replaced :
  deepMerge (VObj [("methods", VArr [VStr "GET"; VStr "POST"])])
            (VObj [("methods", VArr [VStr "PUT"])])
  = Ok (VObj [("methods", VArr [VStr "PUT"])]).
Proof. reflexivity. Qed.

(** An override key [__proto__] holding an object is not copied: its merge
    with [Object.prototype] becomes the prototype of the result, whose keys
    are then read through it. *)
Example deepMerge_proto_key :
  deepMerge (VObj [("a", VNum (Num 1))])
            (VObj [("__proto__", VObj [("b", VNum (Num 2))])])
  = Ok (VProtoObj (VObj [("b", VNum (Num 2))]) [("a", VNum (Num 1))]) /\
  get (VProtoObj (VObj [("b", VNum (Num 2))]) [("a", VNum (Num 1))]) "b"
  = Ok (VNum (Num 2)).
Proof. split; reflexivity. Qed.




(** ** [loadConfiguration] and the environment overrides *)

(** Peel the [bind] steps of a successful computation, naming every
    intermediate value. *)
Ltac bind_inv :=
  repeat match goal with
  | H : bind ?r _ = Ok _ |- _ =>
      let E := fresh "E" in
      destruct r eqn:E; simpl in H; [|discriminate H]
  end.

Lemma env_or_set : forall e n d s,
  env_get e n = Some s -> s <> "" -> env_or e n d = Ok (VStr s).
Proof.
  intros e n d s H Hne. unfold env_or. rewrite H.
  destruct (String.eqb s "") eqn:E; [apply String.eqb_eq in E; congruence | reflexivity].
Qed.

Lemma env_set_true : forall e n s,
  env_get e n = Some s -> s <> "" -> env_set e n = true.
Proof.
  intros e n s H Hne. unfold env_set. rewrite H.
  destruct (String.eqb s "") eqn:E; [apply String.eqb_eq in E; congruence | reflexivity].
Qed.

Lemma logConfigurationSources_ok : forall e b st,
  exists console', logConfigurationSources e b st
                   = (Ok tt, {| configuration := configuration st; console := console' |}).
Proof.
  intros e b [c l]. unfold logConfigurationSources, ret, emit.
  destruct (app _ _); eexists; reflexivity.
Qed.

(** A load from the unloaded state that succeeds resolves the object literal
    against some (merged) document and caches the result. *)
Lemma load_fresh_resolve : forall w st cfg st',
  configuration st = None ->
  loadConfiguration w st = (Ok cfg, st') ->
  (exists merged, resolve (process_env w) merged = Ok cfg) /\
  configuration st' = Some cfg.
Proof.
  intros w st cfg st' Hnone Hload.
  unfold loadConfiguration in Hload. rewrite Hnone in Hload.
  destruct (load_body w st) as [[c|e] st1] eqn:Hb; [|discriminate Hload].
  inversion Hload; subst c st1. clear Hload.
  unfold load_body, mbind, lift, ret, emit, store in Hb.
  destruct (read_config (config_file w)) as [base|e];
    cbn -[resolve logConfigurationSources deepMerge] in Hb; [|discriminate Hb].
  destruct (dev_config_file w) as [| |d]; [| | destruct (deepMerge base d) as [m|e']];
    cbn -[resolve logConfigurationSources deepMerge] in Hb;
    match type of Hb with
    | context [resolve (process_env w) ?x] =>
        destruct (resolve (process_env w) x) as [c|e] eqn:Hr;
        cbn -[resolve logConfigurationSources deepMerge] in Hb; [|discriminate Hb]
    end;
    match type of Hb with
    | context [logConfigurationSources ?e ?b ?s] =>
        destruct (logConfigurationSources_ok e b s) as [c' Hl]; rewrite Hl in Hb
    end;
    cbn in Hb; inversion Hb; subst; eauto.
Qed.

(** The value of the [try] block of [loadConfiguration] is the object literal
    resolved against the merged documents; the cache is written exactly when
    that succeeds. *)
Lemma load_body_result : forall w st,
  fst (load_body w st) = (m <- merged_documents w ;; resolve (process_env w) m) /\
  configuration (snd (load_body w st)) =
    match fst (load_body w st) with Ok c => Some c | Throw _ => configuration st end.
Proof.
  intros w st.
  unfold load_body, merged_documents, mbind, lift, ret, emit, store.
  destruct (read_config (config_file w)) as [base|e];
    cbn -[resolve logConfigurationSources deepMerge]; [|split; reflexivity].
  destruct (dev_config_file w) as [| |d]; [| | destruct (deepMerge base d) as [m|e']];
    cbn -[resolve logConfigurationSources deepMerge];
    match goal with
    | |- context [resolve (process_env w) ?x] =>
        destruct (resolve (process_env w) x) as [c|e] eqn:Hr;
        cbn -[resolve logConfigurationSources deepMerge]; [|split; reflexivity]
    end;
    match goal with
    | |- context [logConfigurationSources ?e ?b ?s] =>
        destruct (logConfigurationSources_ok e b s) as [c' Hl]; rewrite Hl
    end; cbn; split; reflexivity.
Qed.

Lemma loadConfiguration_fresh : forall w st,
  configuration st = None ->
  fst (loadConfiguration w st) =
    match (m <- merged_documents w ;; resolve (process_env w) m) with
    | Ok c => Ok c
    | Throw e => Throw (ConfigLoadError e)
    end /\
  configuration (snd (loadConfiguration w st)) =
    match (m <- merged_documents w ;; resolve (process_env w) m) with
    | Ok c => Some c
    | Throw _ => None
    end.
Proof.
  intros w st Hn. destruct (load_body_result w st) as [H1 H2].
  unfold loadConfiguration. rewrite Hn.
  destruct (load_body w st) as [r st'] eqn:Hb. simpl in H1, H2 |- *.
  rewrite <- H1. destruct r as [c|e]; simpl; [auto|]. rewrite H2, Hn. auto.
Qed.

Lemma load_fresh_ok : forall w st c st',
  configuration st = None ->
  loadConfiguration w st = (Ok c, st') ->
  exists m, merged_documents w = Ok m /\ resolve (process_env w) m = Ok c.
Proof.
  intros w st c st' Hn H.
  destruct (loadConfiguration_fresh w st Hn) as [H1 _]. rewrite H in H1. simpl in H1.
  destruct (merged_documents w) as [m|e]; simpl in H1; [|discriminate H1].
  exists m. split; [reflexivity|]. destruct (resolve (process_env w) m); congruence.
Qed.

(** What [resolve] takes from the environment. *)
Lemma resolve_env_fields : forall e base cfg,
  resolve e base = Ok cfg ->
  (forall s, env_get e "PORT" = Some s -> s <> "" -> port (server cfg) = VNum (parseInt10 s)) /\
  (forall s, env_get e "FRONTEND_DIST" = Some s -> s <> "" -> frontendDist (server cfg) = VStr s) /\
  (forall s, env_get e "NODE_ENV" = Some s -> s <> "" -> nodeEnv (server cfg) = VStr s) /\
  (forall s, env_get e "CORS_ORIGIN" = Some s -> s <> "" -> origin (cors cfg) = VStr s) /\
  (forall s, env_get e "SESSION_SECRET" = Some s -> s <> "" -> secret (session cfg) = VStr s) /\
  (forall s, env_get e "OIDC_ISSUER" = Some s -> s <> "" -> issuer (oidc (auth cfg)) = VStr s) /\
  (forall s, env_get e "OIDC_CLIENT_ID" = Some s -> s <> "" -> clientID (oidc (auth cfg)) = VStr s) /\
  (forall s, env_get e "OIDC_CLIENT_SECRET" = Some s -> s <> "" -> clientSecret (oidc (auth cfg)) = VStr s) /\
  (forall s, env_get e "OIDC_CALLBACK_URL" = Some s -> s <> "" -> callbackURL (oidc (auth cfg)) = VStr s) /\
  (env_get e "NODE_ENV" = Some "production" -> cookieSecure (session cfg) = VBool true) /\
  ((env_get e "DISABLE_AUTH" = Some "true" \/ env_get e "DISABLE_AUTH" = Some "1") ->
     disabled (auth cfg) = VBool true) /\
  (env_is e "DISABLE_AUTH" "true" = false -> env_is e "DISABLE_AUTH" "1" = false ->
     get2 base "auth" "disabled" = Ok (disabled (auth cfg))).
Proof.
  intros e base cfg H. unfold resolve in H. bind_inv.
  inversion H; subst cfg; clear H; simpl.
  repeat split; intros;
    repeat match goal with
    | Hg : env_get e ?n = Some ?s, Hn : ?s <> "", Ho : env_or e ?n _ = Ok _ |- _ =>
        rewrite (env_or_set e n _ s Hg Hn) in Ho; inversion Ho; subst; clear Ho
    end;
    try reflexivity.
  - match goal with Ep : (if env_set e "PORT" then _ else _) = Ok _ |- _ =>
      rewrite (env_set_true e "PORT" s H H0) in Ep; rewrite H in Ep; inversion Ep; reflexivity
    end.
  - match goal with Ec : (if env_is e "NODE_ENV" "production" then _ else _) = Ok _ |- _ =>
      unfold env_is in Ec; rewrite H in Ec; inversion Ec; reflexivity
    end.
  - match goal with Ed : (if env_is e "DISABLE_AUTH" "true" || _ then _ else _) = Ok _ |- _ =>
      unfold env_is in Ed; destruct H as [H|H]; rewrite H in Ed; inversion Ed; reflexivity
    end.
  - match goal with Ed : (if env_is e "DISABLE_AUTH" "true" || _ then _ else _) = Ok _ |- _ =>
      rewrite H, H0 in Ed; exact Ed
    end.
Qed.

(** C2 (as stated): with DISABLE_AUTH=false in the environment, a
    local-override document that sets [auth.disabled] to true still wins. *)
Lemma disable_auth_false_does_not_win :
  env_get (process_env disable_auth_false_world) "DISABLE_AUTH" = Some "false" /\
  option_map (fun c => disabled (auth c)) (loaded_config disable_auth_false_world)
  = Some (VBool true).
Proof. split; vm_compute; reflexivity. Qed.

(** Names of the variables the code reads. *)
Definition read_vars : list string :=
  ["PORT"; "FRONTEND_DIST"; "NODE_ENV"; "CORS_ORIGIN"; "SESSION_SECRET"; "DISABLE_AUTH";
   "OIDC_ISSUER"; "OIDC_CLIENT_ID"; "OIDC_CLIENT_SECRET"; "OIDC_CALLBACK_URL"].

Lemma resolve_env_ext : forall e e',
  (forall n, In n read_vars -> env_get e n = env_get e' n) ->
  resolve e = resolve e'.
Proof.
  intros e e' H. apply functional_extensionality. intros base.
  unfold resolve, env_set, env_is, env_or.
  rewrite !H by (unfold read_vars; simpl; tauto). reflexivity.
Qed.

Lemma filter_env_set_ext : forall e e' l,
  (forall n, In n l -> env_get e n = env_get e' n) ->
  filter (env_set e) l = filter (env_set e') l.
Proof.
  intros e e' l H. induction l as [|n l IH]; simpl; [reflexivity|].
  assert (Hn : env_set e n = env_set e' n)
    by (unfold env_set; rewrite H by (left; reflexivity); reflexivity).
  rewrite Hn, IH by (intros; apply H; right; assumption). reflexivity.
Qed.

Lemma logConfigurationSources_env_ext : forall e e',
  (forall n, In n read_vars -> env_get e n = env_get e' n) ->
  logConfigurationSources e = logConfigurationSources e'.
Proof.
  intros e e' H. apply functional_extensionality. intros b.
  unfold logConfigurationSources. rewrite (filter_env_set_ext e e'); [reflexivity|].
  exact H.
Qed.

(** A load reads the environment only through the variables of [read_vars]. *)
Lemma loadConfiguration_env_ext : forall w e e',
  (forall n, In n read_vars -> env_get e n = env_get e' n) ->
  loadConfiguration (with_env w e) = loadConfiguration (with_env w e').
Proof.
  intros w e e' H. unfold loadConfiguration, load_body.
  cbn [with_env process_env config_file dev_config_file].
  rewrite (resolve_env_ext e e' H), (logConfigurationSources_env_ext e e' H).
  reflexivity.
Qed.

Lemma oidc_url_vars_unread : forall w st,
  env_vars_unread ["OIDC_AUTHORIZATION_URL"; "OIDC_TOKEN_URL"; "OIDC_USERINFO_URL"] w st.
Proof.
  intros w st name v Hin.
  assert (Hw : loadConfiguration w = loadConfiguration (with_env w (process_env w)))
    by (destruct w; reflexivity).
  rewrite Hw, (loadConfiguration_env_ext w ((name, v) :: process_env w) (process_env w));
    [reflexivity|].
  intros n Hn. simpl.
  destruct (String.eqb name n) eqn:E; [|reflexivity].
  apply String.eqb_eq in E; subst n.
  unfold read_vars in Hn; simpl in Hin, Hn.
  destruct Hin as [<-|[<-|[<-|[]]]];
    repeat (destruct Hn as [Hn|Hn]; [discriminate Hn|]); destruct Hn.
Qed.

(** C2 (amended): after a first successful load, a set and non-empty PORT,
    FRONTEND_DIST, NODE_ENV, CORS_ORIGIN, SESSION_SECRET, OIDC_ISSUER,
    OIDC_CLIENT_ID, OIDC_CLIENT_SECRET or OIDC_CALLBACK_URL decides its field
    whatever the documents say (PORT through [parseInt(PORT, 10)]);
    DISABLE_AUTH equal to "true" or "1" forces [auth.disabled] to true and any
    other value leaves the merged documents' value; OIDC_AUTHORIZATION_URL,
    OIDC_TOKEN_URL and OIDC_USERINFO_URL are not read at all. *)
Theorem loadConfiguration_env_overrides (w : world) (st : state)
  (cfg : ApplicationConfiguration) (st' : state)
  (Hfresh : configuration st = None)
  (Hload : loadConfiguration w st = (Ok cfg, st')) :
  env_overrides_respected w cfg /\
  env_vars_unread ["OIDC_AUTHORIZATION_URL"; "OIDC_TOKEN_URL"; "OIDC_USERINFO_URL"] w st.
Proof.
  destruct (load_fresh_ok w st cfg st' Hfresh Hload) as [merged [Hm Hr]].
  split; [|apply oidc_url_vars_unread].
  pose proof (resolve_env_fields _ _ _ Hr) as F.
  unfold env_overrides_respected.
  destruct F as (F1 & F2 & F3 & F4 & F5 & F6 & F7 & F8 & F9 & F10 & F11 & F12).
  repeat (split; [assumption|]).
  intros Ht H1. exists merged. split; [exact Hm|]. split; [exact Hr | exact (F12 Ht H1)].
Qed.

Lemma loadConfiguration_env_overrides_witness :
  exists cfg st',
    loadConfiguration (with_env dev_world [("PORT", "8324"); ("SESSION_SECRET", "0123456789abcdef");
                                           ("DISABLE_AUTH", "false")])
                      empty_state = (Ok cfg, st') /\
    env_overrides_respected (with_env dev_world [("PORT", "8324");
                                                 ("SESSION_SECRET", "0123456789abcdef");
                                                 ("DISABLE_AUTH", "false")]) cfg /\
    env_vars_unread ["OIDC_AUTHORIZATION_URL"; "OIDC_TOKEN_URL"; "OIDC_USERINFO_URL"]
      (with_env dev_world [("PORT", "8324"); ("SESSION_SECRET", "0123456789abcdef");
                           ("DISABLE_AUTH", "false")]) empty_state.
Proof.
  do 2 eexists. split; [reflexivity|].
  eapply (loadConfiguration_env_overrides
           (with_env dev_world [("PORT", "8324"); ("SESSION_SECRET", "0123456789abcdef");
                                ("DISABLE_AUTH", "false")])
           empty_state); reflexivity.
Defined.

(** ** [cookieSecure] in production *)

(** C3 (as stated): production mode coming from a document alone does not
    force [session.cookieSecure]. *)
Lemma production_by_document_cookie_not_forced :
  option_map (fun c => (nodeEnv (server c), cookieSecure (session c)))
             (loaded_config production_by_document_world)
  = Some (VStr "production", VBool false).
Proof. vm_compute. reflexivity. Qed.

(** C3 (amended): when the NODE_ENV environment variable is exactly
    "production", the first successful load resolves [server.nodeEnv] to
    "production" and [session.cookieSecure] to true, whatever the documents
    declare. *)
Theorem loadConfiguration_production_cookie (w : world) (st : state)
  (cfg : ApplicationConfiguration) (st' : state)
  (Hfresh : configuration st = None)
  (Hload : loadConfiguration w st = (Ok cfg, st'))
  (Henv : env_get (process_env w) "NODE_ENV" = Some "production") :
  nodeEnv (server cfg) = VStr "production" /\ cookieSecure (session cfg) = VBool true.
Proof.
  destruct (load_fresh_resolve w st cfg st' Hfresh Hload) as [[merged Hr] _].
  pose proof (resolve_env_fields _ _ _ Hr) as F.
  destruct F as (_ & _ & F3 & _ & _ & _ & _ & _ & _ & F10 & _).
  split; [apply F3; [exact Henv | discriminate] | apply F10; exact Henv].
Qed.

Lemma loadConfiguration_production_cookie_witness :
  exists cfg st',
    loadConfiguration (with_env production_by_document_world [("NODE_ENV", "production")])
                      empty_state = (Ok cfg, st') /\
    nodeEnv (server cfg) = VStr "production" /\ cookieSecure (session cfg) = VBool true.
Proof.
  do 2 eexists. split; [reflexivity|].
  eapply (loadConfiguration_production_cookie
            (with_env production_by_document_world [("NODE_ENV", "production")])
            empty_state); reflexivity.
Defined.

(** ** [validateConfiguration] *)

(** With a configuration cached, [validateConfiguration] is the outcome of
    [validate_checks], with one diagnostic for a failed check. *)
Lemma validateConfiguration_cached : forall w st cfg,
  configuration st = Some cfg ->
  validateConfiguration w st =
    match validate_checks cfg with
    | Ok (Some msg) => (Ok false, {| configuration := Some cfg;
                                     console := app (console st) [(ErrorL, msg)] |})
    | Ok None => (Ok true, st)
    | Throw e => (Throw e, st)
    end.
Proof.
  intros w [c l] cfg H. simpl in H. subst c.
  unfold validateConfiguration, getConfiguration, mbind, lift, emit, ret. simpl.
  destruct (validate_checks cfg) as [[msg|]|e]; reflexivity.
Qed.

Lemma to_number_primitive : forall v, is_primitive v = true -> exists n, to_number v = Ok n.
Proof. intros [] H; try discriminate; eexists; reflexivity. Qed.

Lemma length_prop_primitive : forall v, is_primitive v = true -> is_primitive (length_prop v) = true.
Proof. intros [] H; try discriminate; reflexivity. Qed.

Lemma js_le_num_primitive : forall v n, is_primitive v = true -> exists b, js_le_num v n = Ok b.
Proof.
  intros v n H. destruct (to_number_primitive v H) as [x Hx].
  unfold js_le_num. rewrite Hx. simpl. eauto.
Qed.

Lemma js_lt_num_primitive : forall v n, is_primitive v = true -> exists b, js_lt_num v n = Ok b.
Proof.
  intros v n H. destruct (to_number_primitive v H) as [x Hx].
  unfold js_lt_num. rewrite Hx. simpl. eauto.
Qed.

(** The port check either fails with its diagnostic or lets the secret check
    run. *)
Lemma validate_checks_port : forall cfg,
  is_primitive (port (server cfg)) = true ->
  validate_checks cfg = Ok (Some "Invalid server port configuration") \/
  validate_checks cfg =
    (let s := secret (session cfg) in
     bad_secret <- (if negb (truthy s) then Ok true else js_lt_num (length_prop s) 16) ;;
     if bad_secret then Ok (Some "Session secret is too short or missing") else
     if negb (truthy (disabled (auth cfg))) then
       if negb (truthy (clientID (oidc (auth cfg))))
          || negb (truthy (clientSecret (oidc (auth cfg))))
       then Ok (Some "OIDC client credentials are missing")
       else Ok None
     else Ok None).
Proof.
  intros cfg Hp. unfold validate_checks.
  destruct (negb (truthy (port (server cfg)))); simpl; [left; reflexivity|].
  destruct (js_le_num_primitive (port (server cfg)) 0 Hp) as [b Hb]. rewrite Hb. simpl.
  destruct b; [left | right]; reflexivity.
Qed.

(** C5: with a resolved configuration cached whose [session.secret] is
    missing (undefined or null) or a string shorter than 16 characters,
    [validateConfiguration()] returns false.  [server.port] is of the declared
    [number] type, or any other non-object value. *)
Theorem validateConfiguration_short_secret (w : world) (st : state)
  (cfg : ApplicationConfiguration)
  (Hcached : configuration st = Some cfg)
  (Hport : is_primitive (port (server cfg)) = true)
  (Hsecret : secret (session cfg) = VUndef \/ secret (session cfg) = VNull \/
             exists s, secret (session cfg) = VStr s /\ (String.length s < 16)%nat) :
  fst (validateConfiguration w st) = Ok false.
Proof.
  rewrite (validateConfiguration_cached w st cfg Hcached).
  destruct (validate_checks_port cfg Hport) as [Hv|Hv]; rewrite Hv; [reflexivity|].
  destruct Hsecret as [Hs|[Hs|[s [Hs Hlen]]]]; rewrite Hs; simpl; try reflexivity.
  destruct (String.eqb s "") eqn:E; simpl; [reflexivity|].
  unfold js_lt_num. simpl.
  replace (Z.of_nat (String.length s) <? 16) with true by (symmetry; apply Z.ltb_lt; lia).
  reflexivity.
Qed.

Lemma validateConfiguration_short_secret_witness :
  fst (validateConfiguration dev_world (cached (with_secret dev_config (VStr "too-short"))))
  = Ok false.
Proof.
  apply (validateConfiguration_short_secret dev_world
           (cached (with_secret dev_config (VStr "too-short")))
           (with_secret dev_config (VStr "too-short")) eq_refl).
  - reflexivity.
  - right; right. exists "too-short". split; [reflexivity | simpl; lia].
Defined.

(** C6: with a resolved configuration cached, [validateConfiguration()]
    returns false when [auth.disabled] is false and [auth.oidc.clientID] or
    [auth.oidc.clientSecret] is empty ([server.port] and [session.secret]
    being of their declared types, or any other non-object values); it returns
    true when [auth.disabled] is true and both are empty, the port is positive
    and the secret has at least 16 characters. *)
Theorem validateConfiguration_oidc_credentials (w : world) (st : state)
  (cfg : ApplicationConfiguration)
  (Hcached : configuration st = Some cfg) :
  (is_primitive (port (server cfg)) = true ->
   is_primitive (secret (session cfg)) = true ->
   disabled (auth cfg) = VBool false ->
   (clientID (oidc (auth cfg)) = VStr "" \/ clientSecret (oidc (auth cfg)) = VStr "") ->
   fst (validateConfiguration w st) = Ok false) /\
  (disabled (auth cfg) = VBool true ->
   clientID (oidc (auth cfg)) = VStr "" ->
   clientSecret (oidc (auth cfg)) = VStr "" ->
   (exists z, port (server cfg) = VNum (Num z) /\ 0 < z) ->
   (exists s, secret (session cfg) = VStr s /\ (16 <= String.length s)%nat) ->
   fst (validateConfiguration w st) = Ok true).
Proof.
  rewrite (validateConfiguration_cached w st cfg Hcached). split.
  - intros Hport Hsec Hdis Hcred.
    destruct (validate_checks_port cfg Hport) as [Hv|Hv]; rewrite Hv; [reflexivity|].
    cbv zeta.
    destruct (negb (truthy (secret (session cfg)))); simpl; [reflexivity|].
    destruct (js_lt_num_primitive (length_prop (secret (session cfg))) 16
                (length_prop_primitive _ Hsec)) as [b Hb].
    rewrite Hb. simpl. destruct b; [reflexivity|].
    rewrite Hdis. simpl.
    destruct Hcred as [H|H]; rewrite H; simpl; [reflexivity|].
    rewrite orb_true_r. reflexivity.
  - intros Hdis Hid Hsec [z [Hp Hz]] [s [Hs Hlen]].
    unfold validate_checks. rewrite Hp, Hs, Hdis. simpl.
    replace (z =? 0) with false by (symmetry; apply Z.eqb_neq; lia).
    unfold js_le_num, js_lt_num. simpl.
    replace (z <=? 0) with false by (symmetry; apply Z.leb_gt; lia).
    destruct s as [|c s']; [simpl in Hlen; lia|]. simpl.
    change (Z.pos (Pos.of_succ_nat (String.length s'))) with (Z.of_nat (S (String.length s'))).
    replace (Z.of_nat (S (String.length s')) <? 16) with false
      by (symmetry; apply Z.ltb_ge; simpl in Hlen; lia).
    reflexivity.
Qed.

Lemma validateConfiguration_oidc_credentials_witness :
  fst (validateConfiguration dev_world
         (cached (with_auth dev_config (VBool false) (VStr "abc") (VStr "")))) = Ok false /\
  fst (validateConfiguration dev_world
         (cached (with_auth dev_config (VBool true) (VStr "") (VStr "")))) = Ok true.
Proof.
  split.
  - apply (proj1 (validateConfiguration_oidc_credentials dev_world
                    (cached (with_auth dev_config (VBool false) (VStr "abc") (VStr "")))
                    (with_auth dev_config (VBool false) (VStr "abc") (VStr "")) eq_refl));
      [reflexivity | reflexivity | reflexivity | right; reflexivity].
  - apply (proj2 (validateConfiguration_oidc_credentials dev_world
                    (cached (with_auth dev_config (VBool true) (VStr "") (VStr "")))
                    (with_auth dev_config (VBool true) (VStr "") (VStr "")) eq_refl));
      [reflexivity | reflexivity | reflexivity
      | exists 3000; split; [reflexivity | lia]
      | exists "a-development-session-secret"; split; [reflexivity | simpl; lia]].
Defined.

(** The two cases of C6 on concrete configurations. *)
Example validate_enabled_missing_secret :
  fst (validateConfiguration dev_world
         (cached (with_auth dev_config (VBool false) (VStr "abc") (VStr "")))) = Ok false.
Proof. vm_compute. reflexivity. Qed.

Example validate_disabled_no_credentials :
  fst (validateConfiguration dev_world
         (cached (with_auth dev_config (VBool true) (VStr "") (VStr "")))) = Ok true.
Proof. vm_compute. reflexivity. Qed.

(** C9 (as stated): with no configuration loaded and no base document,
    [validateConfiguration()] throws the loading error instead of returning a
    boolean. *)
Lemma validateConfiguration_throws_without_base :
  fst (validateConfiguration missing_config_world empty_state) = Throw (ConfigLoadError ENOENT).
Proof. reflexivity. Qed.

(** C9 (amended): [validateConfiguration()] catches nothing.  When loading is
    needed and fails, its error propagates; with a configuration cached whose
    [server.port] and [session.secret] are not objects or arrays, it returns a
    boolean without throwing, after exactly one diagnostic (that of the first
    failed check) or none when every check passes. *)
Theorem validateConfiguration_outcomes (w : world) (st : state) :
  (forall e, fst (loadConfiguration w st) = Throw e ->
             fst (validateConfiguration w st) = Throw e) /\
  (forall cfg, configuration st = Some cfg ->
   is_primitive (port (server cfg)) = true ->
   is_primitive (secret (session cfg)) = true ->
   (validate_checks cfg = Ok None /\ validateConfiguration w st = (Ok true, st)) \/
   (exists msg, validate_checks cfg = Ok (Some msg) /\
      validateConfiguration w st =
        (Ok false, {| configuration := Some cfg; console := app (console st) [(ErrorL, msg)] |}))).
Proof.
  split.
  - intros e He. unfold validateConfiguration, getConfiguration, mbind.
    destruct (configuration st) eqn:Hc.
    + unfold loadConfiguration in He. rewrite Hc in He. discriminate He.
    + destruct (loadConfiguration w st) as [r st'] eqn:Hl. simpl in He. subst r. reflexivity.
  - intros cfg Hc Hport Hsec.
    rewrite (validateConfiguration_cached w st cfg Hc).
    assert (Hok : exists o, validate_checks cfg = Ok o).
    { destruct (validate_checks_port cfg Hport) as [Hv|Hv]; rewrite Hv; [eauto|].
      cbv zeta.
      destruct (negb (truthy (secret (session cfg)))); simpl; [eauto|].
      destruct (js_lt_num_primitive (length_prop (secret (session cfg))) 16
                  (length_prop_primitive _ Hsec)) as [b Hb].
      rewrite Hb. simpl.
      destruct b; [eauto|].
      destruct (negb (truthy (disabled (auth cfg)))); [|eauto].
      destruct (_ || _); eauto. }
    destruct Hok as [[msg|] Ho]; rewrite Ho; [right; eauto | left; auto].
Qed.

(** ** Caching *)

(** C8: once a call has returned a configuration, the next call returns the
    same cached configuration and leaves the state unchanged, whatever the
    environment and the files are by then. *)
Theorem loadConfiguration_cached (w1 w2 : world) (st : state)
  (c : ApplicationConfiguration) (st1 : state)
  (Hload : loadConfiguration w1 st = (Ok c, st1)) :
  loadConfiguration w2 st1 = (Ok c, st1).
Proof.
  destruct (configuration st) as [c0|] eqn:Hc.
  - unfold loadConfiguration in Hload. rewrite Hc in Hload. inversion Hload; subst.
    unfold loadConfiguration. rewrite Hc. reflexivity.
  - destruct (load_fresh_resolve w1 st c st1 Hc Hload) as [_ Hc1].
    unfold loadConfiguration. rewrite Hc1. reflexivity.
Qed.

Lemma loadConfiguration_cached_witness :
  exists c st1, loadConfiguration dev_world empty_state = (Ok c, st1) /\
  loadConfiguration (with_env production_by_document_world [("PORT", "1"); ("NODE_ENV", "production")]) st1
  = (Ok c, st1).
Proof.
  do 2 eexists. split; [reflexivity|].
  eapply (loadConfiguration_cached dev_world _ empty_state). reflexivity.
Defined.

(** ** An unparsable PORT *)

(** C10: when the first load succeeds with PORT set to a non-empty string in
    which [parseInt(PORT, 10)] finds no digits, [server.port] is NaN (the
    documents' port is not used) and [validateConfiguration()] on the cached
    configuration returns false with the port diagnostic. *)
Theorem loadConfiguration_unparsable_port (w : world) (st : state)
  (cfg : ApplicationConfiguration) (st' : state) (p : string)
  (Hfresh : configuration st = None)
  (Hload : loadConfiguration w st = (Ok cfg, st'))
  (Hport : env_get (process_env w) "PORT" = Some p)
  (Hne : p <> "")
  (Hnan : parseInt10 p = NaN) :
  port (server cfg) = VNum NaN /\
  validateConfiguration w st' =
    (Ok false, {| configuration := Some cfg;
                  console := app (console st') [(ErrorL, "Invalid server port configuration")] |}).
Proof.
  destruct (load_fresh_resolve w st cfg st' Hfresh Hload) as [[merged Hr] Hc].
  destruct (resolve_env_fields _ _ _ Hr) as (F1 & _).
  assert (Hp : port (server cfg) = VNum NaN) by (rewrite (F1 p Hport Hne), Hnan; reflexivity).
  split; [exact Hp|].
  rewrite (validateConfiguration_cached w st' cfg Hc).
  unfold validate_checks. rewrite Hp. reflexivity.
Qed.

Lemma loadConfiguration_unparsable_port_witness :
  exists cfg st',
    loadConfiguration (with_env dev_world [("PORT", "http")]) empty_state = (Ok cfg, st') /\
    port (server cfg) = VNum NaN /\
    validateConfiguration (with_env dev_world [("PORT", "http")]) st' =
      (Ok false, {| configuration := Some cfg;
                    console := app (console st') [(ErrorL, "Invalid server port configuration")] |}).
Proof.
  do 2 eexists. split; [reflexivity|].
  eapply (loadConfiguration_unparsable_port (with_env dev_world [("PORT", "http")])
            empty_state _ _ "http"); try reflexivity; discriminate.
Defined.

(** ** The authentication gate behind the Express mounts *)

Section PrefixFacts.
Local Transparent String.prefix.

Lemma prefix_app_inv (s1 s2 : string) :
  String.prefix s1 s2 = true -> exists r, s2 = (s1 ++ r)%string.
Proof.
  revert s2; induction s1 as [|a s1 IH]; intros s2 H.
  - exists s2. reflexivity.
  - destruct s2 as [|b s2]; [discriminate|]. simpl in H.
    destruct (ascii_dec a b) as [->|]; [|discriminate].
    destruct (IH s2 H) as [r ->]. exists r. reflexivity.
Qed.

End PrefixFacts.

Lemma substring_0_length (r : string) : substring 0 (String.length r) r = r.
Proof. induction r as [|c r IH]; simpl; [reflexivity | now rewrite IH]. Qed.

(** Every unauthenticated GET in Enabled mode that is not one of the auth
    routes is answered by [requireAuth]; the JSON 401 is sent only when the
    path starts with "/api/api/", since inside the "/api" mount [req.path]
    no longer carries the "/api" prefix.  Every other path, "/api/..."
    included, is redirected to the login route. *)
Lemma setupApp_unauthenticated (cfg : ApplicationConfiguration) (req : request)
  (Hen : isAuthDisabled cfg = false)
  (Hunauth : authenticated req = false)
  (Hroute : existsb (String.eqb (path req)) auth_routes = false) :
  setupApp_dispatch cfg req =
    Responded (if String.prefix "/api/api/" (path req) then gate_401
               else RedirectResp 302 "/auth/login").
Proof.
  unfold setupApp_dispatch. rewrite Hroute. unfold mount_match.
  destruct req as [p a]; simpl in *; subst a.
  destruct (String.eqb p "/api") eqn:E1.
  - apply String.eqb_eq in E1; subst p.
    unfold requireAuth; rewrite Hen. reflexivity.
  - change ("/api" ++ "/")%string with "/api/".
    destruct (String.prefix "/api/" p) eqn:E2.
    + destruct (prefix_app_inv _ _ E2) as [r ->].
      assert (Hs : substring (String.length "/api") (String.length ("/api/" ++ r) - String.length "/api")
                     ("/api/" ++ r) = String "/" r)
        by (simpl; rewrite ?Nat.sub_0_r, substring_0_length; reflexivity).
      change (String.length "/api") with 4%nat in Hs. rewrite Hs.
      unfold requireAuth; rewrite Hen. simpl.
      change (String.prefix "/api/" (String "/" r)) with (String.prefix "api/" r).
      change (String.prefix "/api/api/" ("/api/" ++ r)) with (String.prefix "api/" r).
      destruct (String.prefix "api/" r); reflexivity.
    + unfold requireAuth; rewrite Hen. simpl. rewrite E2.
      destruct (String.prefix "/api/api/" p) eqn:E3; [|reflexivity].
      destruct (prefix_app_inv _ _ E3) as [r ->].
      change ("/api/api/" ++ r)%string with ("/api/" ++ ("api/" ++ r))%string in E2.
      destruct ("api/" ++ r)%string; discriminate E2.
Qed.

(** C1 (divergence): in Enabled mode an unauthenticated GET /api/anything is
    redirected (302) to /auth/login, not answered with 401: [requireAuth]
    alone would answer 401 for the path "/api/anything", but the application
    runs it inside the "/api" mount, where [req.path] is "/anything".  An
    unauthenticated GET /dashboard is redirected to /auth/login as stated. *)
Theorem requireAuth_api_request_redirected (cfg : ApplicationConfiguration)
  (Hen : isAuthDisabled cfg = false) :
  setupApp_dispatch cfg api_anything = Responded (RedirectResp 302 "/auth/login") /\
  requireAuth cfg api_anything = Respond gate_401 /\
  setupApp_dispatch cfg dashboard = Responded (RedirectResp 302 "/auth/login").
Proof.
  split; [|split].
  - rewrite (setupApp_unauthenticated cfg api_anything Hen eq_refl eq_refl). reflexivity.
  - unfold requireAuth. rewrite Hen. reflexivity.
  - rewrite (setupApp_unauthenticated cfg dashboard Hen eq_refl eq_refl). reflexivity.
Qed.

Lemma requireAuth_api_request_redirected_witness :
  isAuthDisabled dev_config = false /\
  setupApp_dispatch dev_config api_anything = Responded (RedirectResp 302 "/auth/login") /\
  requireAuth dev_config api_anything = Respond gate_401 /\
  setupApp_dispatch dev_config dashboard = Responded (RedirectResp 302 "/auth/login").
Proof.
  split; [reflexivity|].
  apply requireAuth_api_request_redirected. reflexivity.
Defined.

(** ** Logout *)

(** C7: in Enabled mode, once [initializeAuth] has stored the discovered
    issuer, GET /auth/logout first logs the user out and destroys the local
    session, logs a session-store error if there is one, and then always
    ends with a 302: to the provider's end-session URL built for the
    post-logout URI [protocol://host/auth/logged-out] when the issuer
    metadata has an end-session endpoint, to /auth/login otherwise.  The
    library call [endSessionUrl] is assumed to succeed when an endpoint is
    advertised. *)
Theorem logout_route_enabled
  (endSessionUrl : oidc_handle -> string -> result string)
  (HendSession : forall h uri, truthy (end_session_endpoint h) = true ->
                 exists u, endSessionUrl h uri = Ok u)
  (cfg : ApplicationConfiguration) (discovery : result oidc_handle)
  (g : option oidc_handle) (req : logout_request) (destroy_failed : bool)
  (Hen : isAuthDisabled cfg = false)
  (Hinit : initializeAuth_globals cfg discovery = Ok g) :
  exists h, discovery = Ok h /\ g = Some h /\
  post_logout_uri req = (protocol req ++ "://" ++ host req ++ "/auth/logged-out")%string /\
  (truthy (end_session_endpoint h) = true ->
     exists u, endSessionUrl h (post_logout_uri req) = Ok u /\
     logout_route endSessionUrl cfg g req destroy_failed =
       ([PassportLogout; SessionDestroy] ++
       (if destroy_failed then [ConsoleError "Session destruction error:"] else []) ++
       [ConsoleLog "Redirecting to provider logout:"; Send (RedirectResp 302 u)])%list) /\
  (truthy (end_session_endpoint h) = false ->
     logout_route endSessionUrl cfg g req destroy_failed =
       ([PassportLogout; SessionDestroy] ++
       (if destroy_failed then [ConsoleError "Session destruction error:"] else []) ++
       [ConsoleLog "Fallback logout - redirecting to login"; Send (RedirectResp 302 "/auth/login")])%list).
Proof.
  unfold initializeAuth_globals in Hinit. rewrite Hen in Hinit.
  destruct discovery as [h|e]; simpl in Hinit; [|discriminate].
  injection Hinit as <-.
  exists h. do 3 (split; [reflexivity|]). split.
  - intros Hep. destruct (HendSession h (post_logout_uri req) Hep) as [u Hu].
    exists u. split; [exact Hu|].
    unfold logout_route, logout_enabled. rewrite Hen, Hep, Hu. reflexivity.
  - intros Hep. unfold logout_route, logout_enabled. rewrite Hen, Hep. reflexivity.
Qed.

Lemma logout_route_enabled_witness :
  exists h, Ok sample_handle = Ok h /\ Some sample_handle = Some h /\
  post_logout_uri {| protocol := "https"; host := "app.example" |} =
    ("https" ++ "://" ++ "app.example" ++ "/auth/logged-out")%string /\
  (truthy (end_session_endpoint h) = true ->
     exists u, sample_endSessionUrl h (post_logout_uri {| protocol := "https"; host := "app.example" |}) = Ok u /\
     logout_route sample_endSessionUrl dev_config (Some sample_handle)
       {| protocol := "https"; host := "app.example" |} true =
       ([PassportLogout; SessionDestroy] ++ [ConsoleError "Session destruction error:"] ++
       [ConsoleLog "Redirecting to provider logout:"; Send (RedirectResp 302 u)])%list) /\
  (truthy (end_session_endpoint h) = false ->
     logout_route sample_endSessionUrl dev_config (Some sample_handle)
       {| protocol := "https"; host := "app.example" |} true =
       ([PassportLogout; SessionDestroy] ++ [ConsoleError "Session destruction error:"] ++
       [ConsoleLog "Fallback logout - redirecting to login"; Send (RedirectResp 302 "/auth/login")])%list).
Proof.
  apply (logout_route_enabled sample_endSessionUrl).
  - intros h uri Hep. unfold sample_endSessionUrl. rewrite Hep. eexists; reflexivity.
  - reflexivity.
  - reflexivity.
Defined.

(** * Further properties of the code *)

(** ** Loading, decomposed *)

Lemma loadConfiguration_ok_cached : forall w st c st',
  loadConfiguration w st = (Ok c, st') -> configuration st' = Some c.
Proof.
  intros w st c st' H. destruct (configuration st) eqn:Hc.
  - unfold loadConfiguration in H. rewrite Hc in H. inversion H; subst. exact Hc.
  - exact (proj2 (load_fresh_resolve w st c st' Hc H)).
Qed.

(** ** What [resolve] reads *)

Lemma get_throw : forall v k y, get v k = Throw y -> y = TypeError.
Proof. intros [] k y H; simpl in H; congruence. Qed.

Lemma get2_throw : forall v a b y, get2 v a b = Throw y -> y = TypeError.
Proof.
  intros v a b y H. unfold get2 in H. destruct (get v a) eqn:E; simpl in H.
  - exact (get_throw _ _ _ H).
  - inversion H; subst. exact (get_throw _ _ _ E).
Qed.

Lemma get3_throw : forall v a b c y, get3 v a b c = Throw y -> y = TypeError.
Proof.
  intros v a b c y H. unfold get3 in H. destruct (get v a) eqn:E; simpl in H.
  - destruct (get a0 b) eqn:E'; simpl in H.
    + exact (get_throw _ _ _ H).
    + inversion H; subst. exact (get_throw _ _ _ E').
  - inversion H; subst. exact (get_throw _ _ _ E).
Qed.

Lemma env_or_throw : forall e n d y, env_or e n d = Throw y -> d = Throw y.
Proof.
  intros e n d y H. unfold env_or in H.
  destruct (env_get e n); [destruct (String.eqb s "")|]; congruence.
Qed.

Lemma env_or_unset : forall e n d, env_set e n = false -> env_or e n d = d.
Proof.
  intros e n d H. unfold env_set in H; unfold env_or.
  destruct (env_get e n); [|reflexivity].
  destruct (String.eqb s ""); [reflexivity | discriminate H].
Qed.

(** Every error of the object literal is a TypeError (a property read on
    undefined or null). *)
Lemma resolve_throw : forall e m y, resolve e m = Throw y -> y = TypeError.
Proof.
  intros e m y H. unfold resolve in H.
  repeat match type of H with
  | bind ?r _ = _ =>
      let E := fresh "E" in
      destruct r eqn:E; simpl in H; [| inversion H; subst; clear H]
  end;
  [discriminate H|..];
  match goal with
  | E : _ = Throw ?y |- ?y = TypeError =>
      repeat match type of E with
      | env_or _ _ _ = _ => apply env_or_throw in E
      | (if ?c then _ else _) = _ => destruct c; [discriminate E|]
      end;
      first [ exact (get2_throw _ _ _ _ E) | exact (get3_throw _ _ _ _ _ E) ]
  end.
Qed.

(** A successful resolution read the documents for each server field whose
    variable is unset or empty, and always for the fields no variable
    overrides. *)
Lemma resolve_reads : forall e m cfg,
  resolve e m = Ok cfg ->
  (env_set e "PORT" = false -> get2 m "server" "port" = Ok (port (server cfg))) /\
  (env_set e "FRONTEND_DIST" = false ->
     get2 m "server" "frontendDist" = Ok (frontendDist (server cfg))) /\
  (env_set e "NODE_ENV" = false -> get2 m "server" "nodeEnv" = Ok (nodeEnv (server cfg))) /\
  get2 m "cors" "methods" = Ok (methods (cors cfg)) /\
  get2 m "cors" "allowedHeaders" = Ok (allowedHeaders (cors cfg)) /\
  get2 m "cors" "credentials" = Ok (credentials (cors cfg)) /\
  get2 m "session" "resave" = Ok (resave (session cfg)) /\
  get2 m "session" "saveUninitialized" = Ok (saveUninitialized (session cfg)) /\
  get3 m "auth" "oidc" "scope" = Ok (scope (oidc (auth cfg))).
Proof.
  intros e m cfg H. unfold resolve in H. bind_inv.
  inversion H; subst cfg; clear H; simpl.
  repeat split; try assumption; intros Hu.
  - match goal with Ep : (if env_set e "PORT" then _ else _) = Ok _ |- _ =>
      rewrite Hu in Ep; exact Ep end.
  - match goal with Ef : env_or e "FRONTEND_DIST" _ = Ok _ |- _ =>
      rewrite (env_or_unset _ _ _ Hu) in Ef; exact Ef end.
  - match goal with En : env_or e "NODE_ENV" _ = Ok _ |- _ =>
      rewrite (env_or_unset _ _ _ Hu) in En; exact En end.
Qed.

(** ** A failed load caches nothing *)

(** When [loadConfiguration()] throws, it throws the wrapping
    "Configuration loading failed" error, its last console line is the
    failure message, and no configuration is cached, so a later call reads
    the files and the environment again exactly as a first call would. *)
Theorem loadConfiguration_failure_not_cached (w : world) (st : state)
  (e : js_error) (st' : state)
  (H : loadConfiguration w st = (Throw e, st')) :
  configuration st = None /\ configuration st' = None /\
  (exists cause, e = ConfigLoadError cause) /\
  (exists l, console st' = app l [(ErrorL, "Failed to load configuration from server.config.json")]) /\
  (forall w', loadConfiguration w' st' =
              loadConfiguration w' {| configuration := None; console := console st' |} /\
              fst (loadConfiguration w' st') = fst (loadConfiguration w' empty_state)).
Proof.
  assert (Hn : configuration st = None).
  { unfold loadConfiguration in H. destruct (configuration st); [discriminate H | reflexivity]. }
  assert (Hn' : configuration st' = None).
  { destruct (loadConfiguration_fresh w st Hn) as [H1 H2]. rewrite H in H1, H2. simpl in H1, H2.
    rewrite H2. destruct (m <- merged_documents w ;; resolve (process_env w) m); congruence. }
  split; [exact Hn|]. split; [exact Hn'|].
  unfold loadConfiguration in H. rewrite Hn in H.
  destruct (load_body w st) as [[c|cause] st1]; [discriminate H|].
  inversion H; subst e st'. split; [eauto|]. split; [simpl; eexists; reflexivity|].
  intros w'. split.
  - unfold loadConfiguration. simpl in Hn' |- *. rewrite Hn'. reflexivity.
  - rewrite (proj1 (loadConfiguration_fresh w' _ Hn')).
    rewrite (proj1 (loadConfiguration_fresh w' empty_state eq_refl)). reflexivity.
Qed.

Lemma loadConfiguration_failure_not_cached_witness :
  exists e st',
    loadConfiguration missing_config_world empty_state = (Throw e, st') /\
    configuration empty_state = None /\ configuration st' = None /\
    (exists cause, e = ConfigLoadError cause) /\
    (exists l, console st' = app l [(ErrorL, "Failed to load configuration from server.config.json")]) /\
    (forall w', loadConfiguration w' st' =
                loadConfiguration w' {| configuration := None; console := console st' |} /\
                fst (loadConfiguration w' st') = fst (loadConfiguration w' empty_state)).
Proof.
  do 2 eexists. split; [reflexivity|].
  eapply (loadConfiguration_failure_not_cached missing_config_world empty_state). reflexivity.
Defined.

(** ** Fields the environment never decides *)

(** [cors.methods], [cors.allowedHeaders], [cors.credentials],
    [session.resave], [session.saveUninitialized] and [auth.oidc.scope] come
    from the documents only: two first loads from the same files agree on
    them whatever their environments. *)
Theorem loadConfiguration_fixed_fields (w : world) (e2 : env)
  (st st2 : state) (c1 c2 : ApplicationConfiguration) (s1 s2 : state)
  (Hf1 : configuration st = None) (Hf2 : configuration st2 = None)
  (H1 : loadConfiguration w st = (Ok c1, s1))
  (H2 : loadConfiguration (with_env w e2) st2 = (Ok c2, s2)) :
  methods (cors c1) = methods (cors c2) /\
  allowedHeaders (cors c1) = allowedHeaders (cors c2) /\
  credentials (cors c1) = credentials (cors c2) /\
  resave (session c1) = resave (session c2) /\
  saveUninitialized (session c1) = saveUninitialized (session c2) /\
  scope (oidc (auth c1)) = scope (oidc (auth c2)).
Proof.
  destruct (load_fresh_ok _ _ _ _ Hf1 H1) as [m1 [Hm1 Hr1]].
  destruct (load_fresh_ok _ _ _ _ Hf2 H2) as [m2 [Hm2 Hr2]].
  assert (Hm : merged_documents (with_env w e2) = merged_documents w) by reflexivity.
  rewrite Hm, Hm1 in Hm2. injection Hm2 as <-.
  destruct (resolve_reads _ _ _ Hr1) as (_ & _ & _ & A1 & A2 & A3 & A4 & A5 & A6).
  destruct (resolve_reads _ _ _ Hr2) as (_ & _ & _ & B1 & B2 & B3 & B4 & B5 & B6).
  repeat split; congruence.
Qed.

Lemma loadConfiguration_fixed_fields_witness :
  exists c1 s1 c2 s2,
    loadConfiguration dev_world empty_state = (Ok c1, s1) /\
    loadConfiguration (with_env dev_world [("NODE_ENV", "production"); ("CORS_ORIGIN", "*")])
      empty_state = (Ok c2, s2) /\
    methods (cors c1) = methods (cors c2) /\
    allowedHeaders (cors c1) = allowedHeaders (cors c2) /\
    credentials (cors c1) = credentials (cors c2) /\
    resave (session c1) = resave (session c2) /\
    saveUninitialized (session c1) = saveUninitialized (session c2) /\
    scope (oidc (auth c1)) = scope (oidc (auth c2)).
Proof.
  do 4 eexists. split; [reflexivity|]. split; [reflexivity|].
  eapply (loadConfiguration_fixed_fields dev_world
            [("NODE_ENV", "production"); ("CORS_ORIGIN", "*")] empty_state empty_state);
    reflexivity.
Defined.

(** ** The shape of the documents *)

Lemma index_key_not_cors : forall n, String.eqb "cors" (index_key n) = false.
Proof. intros n. unfold index_key. destruct (Nat.to_uint n); reflexivity. Qed.

Lemma lookup_indexed_cors : forall A (f : A -> value) i l,
  lookup (indexed f i l) "cors" = None.
Proof.
  intros A f i l. revert i. induction l as [|x l IH]; intros i; [reflexivity|].
  cbn [indexed lookup]. rewrite index_key_not_cors. apply IH.
Qed.

Lemma lookup_app : forall l1 l2 k,
  lookup (l1 ++ l2) k = match lookup l1 k with Some x => Some x | None => lookup l2 k end.
Proof.
  induction l1 as [|[k' x] l1 IH]; intros l2 k; [reflexivity|].
  cbn [app lookup]. destruct (String.eqb k k'); [reflexivity | apply IH].
Qed.

(** A non-object JSON value (number, string, boolean or array) has no
    [cors] section to read. *)
Lemma get2_cors_not_object : forall d k,
  is_plain_object d = false -> d <> VUndef -> d <> VNull ->
  get2 d "cors" k = Throw TypeError.
Proof.
  intros d k Hobj Hu Hn. unfold get2.
  destruct d; try discriminate; try congruence.
  - reflexivity.
  - reflexivity.
  - unfold get at 1. cbn [lookup_chain own_props].
    rewrite lookup_app, lookup_indexed_cors. reflexivity.
  - unfold get at 1. cbn [lookup_chain own_props].
    rewrite lookup_app, lookup_indexed_cors. reflexivity.
  - destruct b; try discriminate. reflexivity.
Qed.

(** If [server.config.dev.json] holds a JSON value that is neither an object
    nor null (a number, a string, a boolean or an array), [deepMerge] returns
    it in place of the whole base document, and [loadConfiguration()] then
    fails, whatever the environment, with the wrapped TypeError of reading
    [baseConfig.cors.methods]; nothing is cached. *)
Theorem loadConfiguration_dev_not_object (w : world) (st : state) (b d : value)
  (Hn : configuration st = None)
  (Hb : config_file w = Doc b) (Hd : dev_config_file w = Doc d)
  (Hobj : is_plain_object d = false) (Hu : d <> VUndef) (Hnull : d <> VNull) :
  fst (loadConfiguration w st) = Throw (ConfigLoadError TypeError) /\
  configuration (snd (loadConfiguration w st)) = None.
Proof.
  assert (Hm : merged_documents w = Ok d).
  { unfold merged_documents. rewrite Hb, Hd. simpl.
    destruct d; try discriminate; try congruence; try reflexivity.
    destruct b0; try discriminate; reflexivity. }
  assert (Hr : resolve (process_env w) d = Throw TypeError).
  { destruct (resolve (process_env w) d) as [c|y] eqn:Hr.
    - destruct (resolve_reads _ _ _ Hr) as (_ & _ & _ & Hmeth & _).
      rewrite (get2_cors_not_object d "methods" Hobj Hu Hnull) in Hmeth. discriminate Hmeth.
    - rewrite (resolve_throw _ _ _ Hr). reflexivity. }
  destruct (loadConfiguration_fresh w st Hn) as [H1 H2].
  rewrite H1, H2, Hm. simpl. rewrite Hr. split; reflexivity.
Qed.

Lemma loadConfiguration_dev_not_object_witness :
  fst (loadConfiguration
         {| process_env := [("PORT", "8080")]; config_file := Doc base_doc;
            dev_config_file := Doc (VArr []) |} empty_state)
    = Throw (ConfigLoadError TypeError) /\
  configuration (snd (loadConfiguration
         {| process_env := [("PORT", "8080")]; config_file := Doc base_doc;
            dev_config_file := Doc (VArr []) |} empty_state)) = None.
Proof.
  apply (loadConfiguration_dev_not_object _ empty_state base_doc (VArr []));
    first [reflexivity | discriminate].
Defined.

Lemma get2_set_neq : forall kvs k v a b,
  k <> a -> get2 (VObj (set kvs k v)) a b = get2 (VObj kvs) a b.
Proof.
  intros kvs k v a b H. unfold get2, get. simpl.
  rewrite lookup_set_neq by congruence. reflexivity.
Qed.

Lemma get3_set_neq : forall kvs k v a b c,
  k <> a -> get3 (VObj (set kvs k v)) a b c = get3 (VObj kvs) a b c.
Proof.
  intros kvs k v a b c H. unfold get3, get at 1 3. simpl.
  rewrite lookup_set_neq by congruence. reflexivity.
Qed.

Lemma env_or_set_indep : forall e n d d',
  env_set e n = true -> env_or e n d = env_or e n d'.
Proof.
  intros e n d d' H. unfold env_set in H; unfold env_or.
  destruct (env_get e n); [|discriminate H].
  destruct (String.eqb s ""); [discriminate H | reflexivity].
Qed.

(** With PORT, FRONTEND_DIST and NODE_ENV all set and non-empty, the
    [server] section of the (merged) document is never read: whatever it
    holds, or whether it is there at all, the object literal of
    [loadConfiguration] comes out the same. *)
Theorem resolve_server_section_unread (e : env) (kvs : list (string * value)) (sv : value)
  (HP : env_set e "PORT" = true) (HF : env_set e "FRONTEND_DIST" = true)
  (HN : env_set e "NODE_ENV" = true) :
  resolve e (VObj (set kvs "server" sv)) = resolve e (VObj kvs).
Proof.
  unfold resolve. rewrite HP.
  rewrite (env_or_set_indep e "FRONTEND_DIST" _ (get2 (VObj kvs) "server" "frontendDist") HF).
  rewrite (env_or_set_indep e "NODE_ENV" _ (get2 (VObj kvs) "server" "nodeEnv") HN).
  rewrite !(get2_set_neq kvs "server" sv "cors") by discriminate.
  rewrite !(get2_set_neq kvs "server" sv "session") by discriminate.
  rewrite !(get2_set_neq kvs "server" sv "auth") by discriminate.
  rewrite !(get3_set_neq kvs "server" sv "auth") by discriminate.
  reflexivity.
Qed.

Lemma resolve_server_section_unread_witness :
  resolve [("PORT", "8080"); ("FRONTEND_DIST", "dist"); ("NODE_ENV", "production")]
    (VObj (set [] "server" (VNum (Num 1)))) =
  resolve [("PORT", "8080"); ("FRONTEND_DIST", "dist"); ("NODE_ENV", "production")] (VObj []).
Proof. apply resolve_server_section_unread; reflexivity. Defined.

(** Otherwise a document without a [server] section cannot be loaded: when
    one of PORT, FRONTEND_DIST and NODE_ENV is unset or empty and reading
    [server] on the merged documents gives undefined (no own or inherited
    [server] property), [loadConfiguration()] throws the wrapped TypeError
    and caches nothing. *)
Theorem loadConfiguration_requires_server_section (w : world) (st : state)
  (m : value)
  (Hn : configuration st = None)
  (Hm : merged_documents w = Ok m)
  (Hs : get m "server" = Ok VUndef)
  (Hv : env_set (process_env w) "PORT" = false \/
        env_set (process_env w) "FRONTEND_DIST" = false \/
        env_set (process_env w) "NODE_ENV" = false) :
  fst (loadConfiguration w st) = Throw (ConfigLoadError TypeError) /\
  configuration (snd (loadConfiguration w st)) = None.
Proof.
  assert (Hg : forall k, get2 m "server" k = Throw TypeError)
    by (intros k; unfold get2; rewrite Hs; reflexivity).
  assert (Hr : resolve (process_env w) m = Throw TypeError).
  { destruct (resolve (process_env w) m) as [c|y] eqn:Hr.
    - destruct (resolve_reads _ _ _ Hr) as (R1 & R2 & R3 & _).
      destruct Hv as [Hv|[Hv|Hv]];
        [rewrite Hg in R1; discriminate (R1 Hv) | rewrite Hg in R2; discriminate (R2 Hv)
        | rewrite Hg in R3; discriminate (R3 Hv)].
    - rewrite (resolve_throw _ _ _ Hr). reflexivity. }
  destruct (loadConfiguration_fresh w st Hn) as [H1 H2].
  rewrite H1, H2, Hm. simpl. rewrite Hr. split; reflexivity.
Qed.

Lemma loadConfiguration_requires_server_section_witness :
  fst (loadConfiguration
         {| process_env := [("PORT", "8080")]; config_file := Doc (VObj []);
            dev_config_file := Missing |} empty_state)
    = Throw (ConfigLoadError TypeError) /\
  configuration (snd (loadConfiguration
         {| process_env := [("PORT", "8080")]; config_file := Doc (VObj []);
            dev_config_file := Missing |} empty_state)) = None.
Proof.
  apply (loadConfiguration_requires_server_section _ empty_state (VObj []));
    [reflexivity | reflexivity | reflexivity | right; left; reflexivity].
Defined.

Lemma value_eq_undef_null : forall v,
  v = VUndef \/ v = VNull \/ (v <> VUndef /\ v <> VNull).
Proof. intros []; auto; right; right; split; discriminate. Qed.

(** A [server] section inherited through a [__proto__] key of the
    local-override document is read like an own one: the load succeeds. *)
Example loadConfiguration_inherited_server_section :
  option_map (fun c => port (server c))
    (loaded_config
       {| process_env := [("SESSION_SECRET", "0123456789abcdef")];
          config_file := Doc (VObj []);
          dev_config_file :=
            Doc (VObj [("__proto__",
                        VObj [("server", VObj [("port", VNum (Num 4000))]);
                              ("cors", VObj []); ("session", VObj []);
                              ("auth", VObj [("oidc", VObj [])])])]) |})
  = Some (VNum (Num 4000)).
Proof. vm_compute. reflexivity. Qed.

(** A local-override document with an own [hasOwnProperty] key makes
    [deepMerge] throw; [loadConfiguration] catches the error, warns, and
    resolves the base document alone. *)
Example merged_documents_own_hasOwnProperty :
  merged_documents
    (with_dev_file dev_world
       (Doc (VObj [("hasOwnProperty", VBool false);
                   ("auth", VObj [("oidc", VObj [("clientSecret", VStr "xyz")])])])))
  = Ok base_doc.
Proof. reflexivity. Qed.

(** Copying the own enumerable properties of a value into a fresh object
    keeps what a read of a key other than [__proto__] and [length] finds,
    unless the value has another prototype than its built-in one. *)
Lemma get_spread_obj : forall v a,
  a <> "__proto__" -> a <> "length" -> (forall p kvs, v <> VProtoObj p kvs) ->
  v <> VUndef -> v <> VNull ->
  get (VObj (spread v)) a = get v a.
Proof.
  intros v a Ha Hl Hp Hu Hn.
  assert (Ea : String.eqb a "__proto__" = false) by (apply String.eqb_neq; exact Ha).
  assert (El : String.eqb a "length" = false) by (apply String.eqb_neq; exact Hl).
  destruct v as [| | b0 | n | s | l | kvs | p kvs | b0]; try congruence;
    [| | | | reflexivity |];
    unfold get; cbn [lookup_chain own_props spread lookup]; rewrite ?lookup_app.
  - rewrite Ea. reflexivity.
  - rewrite Ea. reflexivity.
  - destruct (lookup _ a); [reflexivity|]. cbn [lookup]. rewrite El, Ea. reflexivity.
  - destruct (lookup _ a); [reflexivity|]. cbn [lookup]. rewrite El, Ea. reflexivity.
  - destruct b0; cbn [lookup]; rewrite ?El, Ea; reflexivity.
Qed.

Lemma get2_spread_obj : forall v a b,
  a <> "__proto__" -> a <> "length" -> (forall p kvs, v <> VProtoObj p kvs) ->
  get2 (VObj (spread v)) a b = get2 v a b.
Proof.
  intros v a b Ha Hl Hp. unfold get2.
  assert (Ea : String.eqb a "__proto__" = false) by (apply String.eqb_neq; exact Ha).
  destruct (value_eq_undef_null v) as [->|[->|[Hu Hn]]];
    [unfold get at 1; cbn; rewrite Ea; reflexivity ..|].
  rewrite get_spread_obj; auto.
Qed.

Lemma get3_spread_obj : forall v a b c,
  a <> "__proto__" -> a <> "length" -> (forall p kvs, v <> VProtoObj p kvs) ->
  get3 (VObj (spread v)) a b c = get3 v a b c.
Proof.
  intros v a b c Ha Hl Hp. unfold get3.
  assert (Ea : String.eqb a "__proto__" = false) by (apply String.eqb_neq; exact Ha).
  destruct (value_eq_undef_null v) as [->|[->|[Hu Hn]]];
    [unfold get at 1; cbn; rewrite Ea; reflexivity ..|].
  rewrite get_spread_obj; auto.
Qed.

(** An empty ([{}]) or [null] local-override document changes nothing:
    [loadConfiguration()] returns and caches the same configuration as
    without the file (only the console differs).  The base document is
    parsed data: it has no other prototype than [Object.prototype]. *)
Theorem loadConfiguration_empty_dev_document (w : world) (st : state)
  (Hn : configuration st = None)
  (Hbase : forall p kvs, config_file w <> Doc (VProtoObj p kvs))
  (Hd : dev_config_file w = Doc (VObj []) \/ dev_config_file w = Doc VNull) :
  fst (loadConfiguration w st) = fst (loadConfiguration (with_dev_file w Missing) st) /\
  configuration (snd (loadConfiguration w st)) =
    configuration (snd (loadConfiguration (with_dev_file w Missing) st)).
Proof.
  destruct (loadConfiguration_fresh w st Hn) as [A1 A2].
  destruct (loadConfiguration_fresh (with_dev_file w Missing) st Hn) as [B1 B2].
  rewrite A1, A2, B1, B2.
  assert (Hm : (m <- merged_documents w ;; resolve (process_env w) m) =
               (m <- merged_documents (with_dev_file w Missing) ;;
                resolve (process_env (with_dev_file w Missing)) m)).
  { unfold merged_documents; simpl.
    destruct (read_config (config_file w)) as [base|e] eqn:Er; simpl; [|reflexivity].
    assert (Hp : forall p kvs, base <> VProtoObj p kvs).
    { intros p kvs ->. apply (Hbase p kvs).
      destruct (config_file w); simpl in Er; try discriminate; congruence. }
    destruct Hd as [Hd|Hd]; rewrite Hd; simpl; [|reflexivity].
    unfold resolve.
    rewrite !get2_spread_obj, !get3_spread_obj by (exact Hp || discriminate).
    reflexivity. }
  rewrite Hm. split; reflexivity.
Qed.

Lemma loadConfiguration_empty_dev_document_witness :
  fst (loadConfiguration (with_dev_file dev_world (Doc (VObj []))) empty_state) =
    fst (loadConfiguration (with_dev_file (with_dev_file dev_world (Doc (VObj []))) Missing) empty_state) /\
  configuration (snd (loadConfiguration (with_dev_file dev_world (Doc (VObj []))) empty_state)) =
    configuration (snd (loadConfiguration
       (with_dev_file (with_dev_file dev_world (Doc (VObj []))) Missing) empty_state)).
Proof.
  apply loadConfiguration_empty_dev_document; [reflexivity | discriminate | left; reflexivity].
Defined.

(** ** [logConfigurationSources] *)

(** [logConfigurationSources] never throws and never touches the cache; it
    writes at most one console line, and none exactly when the local-override
    document was not merged and none of the ten variables it inspects is set
    and non-empty. *)
Theorem logConfigurationSources_at_most_one_line (e : env) (d : bool) (st : state) :
  exists out,
    logConfigurationSources e d st =
      (Ok tt, {| configuration := configuration st; console := app (console st) out |}) /\
    (List.length out <= 1)%nat /\
    (out = [] <-> d = false /\
       forall n, In n ["PORT"; "FRONTEND_DIST"; "NODE_ENV"; "CORS_ORIGIN";
                       "SESSION_SECRET"; "DISABLE_AUTH"; "OIDC_ISSUER";
                       "OIDC_CLIENT_ID"; "OIDC_CLIENT_SECRET"; "OIDC_CALLBACK_URL"] ->
                 env_set e n = false).
Proof.
  unfold logConfigurationSources, ret, emit.
  match goal with |- context [filter (env_set e) ?l] =>
    set (names := l); destruct (filter (env_set e) names) as [|x xs] eqn:Hf end.
  - destruct d; simpl.
    + eexists. split; [reflexivity|]. split; [simpl; lia|].
      split; [discriminate | intros [H _]; discriminate H].
    + exists []. split; [destruct st; simpl; rewrite app_nil_r; reflexivity|].
      split; [simpl; lia|]. split; [|reflexivity]. intros _. split; [reflexivity|].
      intros n Hn. destruct (env_set e n) eqn:E; [|reflexivity].
      assert (Hin : In n (filter (env_set e) names)) by (apply filter_In; auto).
      rewrite Hf in Hin. destruct Hin.
  - destruct d; simpl; eexists; (split; [reflexivity|]); (split; [simpl; lia|]);
      (split; [discriminate|]).
    + intros [H _]; discriminate H.
    + intros [_ Hall].
      assert (Hin : In x (filter (env_set e) names)) by (rewrite Hf; left; reflexivity).
      apply filter_In in Hin. destruct Hin as [Hx Hs]. rewrite (Hall x Hx) in Hs. discriminate Hs.
Qed.

(** ** [validateConfiguration]'s checks *)

Lemma validate_checks_numeric_port : forall cfg n,
  validate_checks cfg = Ok None -> port (server cfg) = VNum n ->
  exists z, n = Num z /\ 0 < z.
Proof.
  intros cfg n H Hp. unfold validate_checks in H. rewrite Hp in H.
  destruct n as [|z]; simpl in H; [discriminate H|].
  destruct (Z.eqb_spec z 0); simpl in H; [discriminate H|].
  unfold js_le_num in H; simpl in H.
  destruct (Z.leb_spec z 0); simpl in H; [discriminate H|]. eauto.
Qed.

(** For a numeric port and a string secret, the checks pass exactly when the
    port is a positive number (not NaN), the secret has at least 16
    characters, and either authentication is disabled or both OIDC client
    credentials are non-empty. *)
Theorem validate_checks_accepts (cfg : ApplicationConfiguration) (n : jsnum) (s : string)
  (Hp : port (server cfg) = VNum n) (Hs : secret (session cfg) = VStr s) :
  validate_checks cfg = Ok None <->
  (exists z, n = Num z /\ 0 < z) /\ (16 <= String.length s)%nat /\
  (truthy (disabled (auth cfg)) = true \/
   (truthy (clientID (oidc (auth cfg))) = true /\ truthy (clientSecret (oidc (auth cfg))) = true)).
Proof.
  split.
  - intros H. split; [exact (validate_checks_numeric_port cfg n H Hp)|].
    unfold validate_checks in H. rewrite Hp, Hs in H. cbv zeta in H.
    destruct n as [|z]; simpl in H; [discriminate H|].
    destruct (z =? 0); simpl in H; [discriminate H|].
    unfold js_le_num in H; simpl in H.
    destruct (z <=? 0); simpl in H; [discriminate H|].
    destruct (String.eqb_spec s ""); simpl in H; [discriminate H|].
    unfold js_lt_num in H; simpl in H.
    destruct (Z.ltb_spec (Z.of_nat (String.length s)) 16); simpl in H; [discriminate H|].
    split; [lia|].
    destruct (truthy (disabled (auth cfg))); simpl in H; [left; reflexivity|right].
    destruct (truthy (clientID (oidc (auth cfg)))), (truthy (clientSecret (oidc (auth cfg))));
      simpl in H; try discriminate H; split; reflexivity.
  - intros [[z [-> Hz]] [Hlen Hauth]].
    unfold validate_checks. rewrite Hp, Hs. cbv zeta. simpl.
    replace (z =? 0) with false by (symmetry; apply Z.eqb_neq; lia).
    unfold js_le_num; simpl. replace (z <=? 0) with false by (symmetry; apply Z.leb_gt; lia).
    simpl. destruct s as [|c s']; [simpl in Hlen; lia|]. simpl.
    unfold js_lt_num; simpl.
    change (Z.pos (Pos.of_succ_nat (String.length s'))) with (Z.of_nat (S (String.length s'))).
    replace (Z.of_nat (S (String.length s')) <? 16) with false
      by (symmetry; apply Z.ltb_ge; simpl in Hlen; lia).
    simpl. destruct Hauth as [Hd | [Hi Hs']]; [rewrite Hd; reflexivity|].
    destruct (truthy (disabled (auth cfg))); [reflexivity|]. rewrite Hi, Hs'. reflexivity.
Qed.

Lemma validate_checks_accepts_witness :
  validate_checks dev_config = Ok None /\
  ((exists z, Num 3000 = Num z /\ 0 < z) /\
   (16 <= String.length "a-development-session-secret")%nat /\
   (truthy (disabled (auth dev_config)) = true \/
    (truthy (clientID (oidc (auth dev_config))) = true /\
     truthy (clientSecret (oidc (auth dev_config))) = true))).
Proof.
  split; [reflexivity|].
  apply (validate_checks_accepts dev_config (Num 3000) "a-development-session-secret");
    reflexivity.
Defined.

(** ** The gate in the application stack *)



(** Fail-closed: in Enabled mode a request without an authenticated session
    never reaches the API routes or the static files and SPA fallback,
    whatever its path. *)
Theorem setupApp_unauthenticated_never_served (cfg : ApplicationConfiguration) (req : request)
  (Hen : isAuthDisabled cfg = false) (Hunauth : authenticated req = false) :
  (forall sub, setupApp_dispatch cfg req <> ApiRoutes sub) /\
  setupApp_dispatch cfg req <> StaticFiles.
Proof.
  destruct (existsb (String.eqb (path req)) auth_routes) eqn:Hr.
  - unfold setupApp_dispatch. rewrite Hr. split; [intros sub|]; discriminate.
  - rewrite (setupApp_unauthenticated cfg req Hen Hunauth Hr).
    split; [intros sub|]; discriminate.
Qed.

Lemma setupApp_unauthenticated_never_served_witness :
  (forall sub, setupApp_dispatch dev_config
                 {| path := "/api/health"; authenticated := false |} <> ApiRoutes sub) /\
  setupApp_dispatch dev_config {| path := "/api/health"; authenticated := false |} <> StaticFiles.
Proof. apply setupApp_unauthenticated_never_served; reflexivity. Defined.

(** ** The logout route sends exactly one response *)

(** Whatever the configuration, the stored globals, the session store and
    [endSessionUrl] do (including throwing), GET /auth/logout sends exactly
    one response, as its last step.  In Disabled mode that is the only step,
    a JSON message.  In Enabled mode the local logout and the session
    destruction come first and the response is a 302 redirect; when
    [endSessionUrl] throws, the redirect goes to /auth/login. *)
Theorem logout_route_single_response
  (endSessionUrl : oidc_handle -> string -> result string)
  (cfg : ApplicationConfiguration) (g : option oidc_handle)
  (req : logout_request) (destroy_failed : bool) :
  forallb (fun a => negb (is_send a))
    (removelast (logout_route endSessionUrl cfg g req destroy_failed)) = true /\
  (isAuthDisabled cfg = true ->
     logout_route endSessionUrl cfg g req destroy_failed =
       [Send (JsonResp 200 (VObj [("message", VStr "Authentication disabled - no logout required")]))]) /\
  (isAuthDisabled cfg = false ->
     firstn 2 (logout_route endSessionUrl cfg g req destroy_failed) = [PassportLogout; SessionDestroy] /\
     exists url, last (logout_route endSessionUrl cfg g req destroy_failed) PassportLogout =
                 Send (RedirectResp 302 url)) /\
  (forall h err, isAuthDisabled cfg = false -> g = Some h ->
     endSessionUrl h (post_logout_uri req) = Throw err ->
     last (logout_route endSessionUrl cfg g req destroy_failed) PassportLogout =
       Send (RedirectResp 302 "/auth/login")).
Proof.
  unfold logout_route, logout_enabled.
  destruct (isAuthDisabled cfg) eqn:Hd.
  - split; [reflexivity|]. split; [reflexivity|].
    split; [intros H; discriminate H | intros h err H; discriminate H].
  - destruct g as [h|];
      [destruct (truthy (end_session_endpoint h)) eqn:Ht;
         [destruct (endSessionUrl h (post_logout_uri req)) as [u|err] eqn:Hu|]|];
      destruct destroy_failed; simpl;
      (split; [reflexivity|]); (split; [intros H; discriminate H|]);
      (split; [intros _; split; [reflexivity | eexists; reflexivity]|]);
      intros h' err' _ Hg Herr; try discriminate Hg; try reflexivity;
      injection Hg as <-; congruence.
Qed.

(** ** Startup *)

(** With the configuration cached, [initializeAuth] stores what
    [initializeAuth_globals] describes and keeps the cache. *)
Lemma initializeAuth_cached : forall discover w st c,
  configuration st = Some c ->
  fst (initializeAuth discover w st) = initializeAuth_globals c (discover (issuer (oidc (auth c)))) /\
  configuration (snd (initializeAuth discover w st)) = Some c.
Proof.
  intros discover w [cc l] c H. simpl in H. subst cc.
  unfold initializeAuth, initializeAuth_globals, isAuthDisabled,
         getConfiguration, mbind, emit, ret, lift. simpl.
  destruct (truthy (disabled (auth c))); simpl; [split; reflexivity|].
  destruct (discover (issuer (oidc (auth c)))); simpl; split; reflexivity.
Qed.

(** The process only starts listening on the configuration that
    [loadConfiguration()] returned and cached, after it passed every check
    of [validateConfiguration()] (so a numeric port is a positive number),
    on that configuration's [server.port], and, in Enabled mode, after the
    issuer discovery succeeded, with the discovered handle stored. *)
Theorem main_listening (discover : value -> result oidc_handle) (w : world) (st : state)
  (p : value) (g : option oidc_handle) (st' : state)
  (H : main discover w st = (Listening p g, st')) :
  exists cfg,
    fst (loadConfiguration w st) = Ok cfg /\
    configuration st' = Some cfg /\
    validate_checks cfg = Ok None /\
    p = port (server cfg) /\
    initializeAuth_globals cfg (discover (issuer (oidc (auth cfg)))) = Ok g /\
    (forall n, p = VNum n -> exists z, n = Num z /\ 0 < z).
Proof.
  unfold main in H.
  destruct (loadConfiguration w st) as [[c|e] st1] eqn:Hl; [|discriminate H].
  pose proof (loadConfiguration_ok_cached _ _ _ _ Hl) as Hc1.
  rewrite (validateConfiguration_cached w st1 c Hc1) in H.
  destruct (validate_checks c) as [[msg|]|e] eqn:Hv; try discriminate H.
  destruct (initializeAuth_cached discover w st1 c Hc1) as [I1 I2].
  destruct (initializeAuth discover w st1) as [[g'|e] st3] eqn:Hi; [|discriminate H].
  injection H as <- <- <-. simpl in I1, I2.
  exists c. repeat split; auto.
  intros n Hp. exact (validate_checks_numeric_port c n Hv Hp).
Qed.

Lemma main_listening_witness :
  exists p g st',
    main (fun _ => Ok sample_handle) dev_world empty_state = (Listening p g, st') /\
    exists cfg,
      fst (loadConfiguration dev_world empty_state) = Ok cfg /\
      configuration st' = Some cfg /\
      validate_checks cfg = Ok None /\
      p = port (server cfg) /\
      initializeAuth_globals cfg ((fun _ => Ok sample_handle) (issuer (oidc (auth cfg)))) = Ok g /\
      (forall n, p = VNum n -> exists z, n = Num z /\ 0 < z).
Proof.
  do 3 eexists. split; [reflexivity|].
  eapply (main_listening (fun _ => Ok sample_handle) dev_world empty_state). reflexivity.
Defined.
